(** * spotify-oauth-gcp: the OAuth callback service and its secret store adapter

    A shallow embedding of [app/main.py] and [app/secrets_manager.py].

    - Python values that arrive as JSON are the inductive [json]; a
      [str | None] is an [option string]; [bytes] is a list of bytes.
    - A Python function that can raise returns a [result]; a function that
      talks to the outside world runs in the monad [M], which threads the
      [world]: the secrets held by Secret Manager, the fate of the calls still
      to come, and the trace of the outbound calls made so far.
    - The library functions whose text is not part of the repository
      ([json.dumps], [json.loads], the UTF-8 codec, [str()] of a value that
      is not a string, and [urllib.parse.urlencode]) are the fields of the
      class [PyLib]; the code is embedded over any instance.                *)

From Stdlib Require Import ZArith String Ascii List Bool Lia.
From Stdlib Require Import Floats.PrimFloat.
From stdpp Require Import gmap strings list fin_maps pretty.

Open Scope Z_scope.
Open Scope string_scope.
Open Scope list_scope.

(* ===================================================================== *)
(** ** Python values                                                      *)
(* ===================================================================== *)

Definition bytes := list Byte.byte.

(** What [json.loads] and [Response.json()] return: [None], [bool], [int],
    [float], [str], [list], or a [dict] given by its items in order. *)
#[local] Unset Elimination Schemes.
Inductive json : Type :=
| JNull
| JBool (b : bool)
| JInt (n : Z)
| JFloat (x : float)
| JStr (s : string)
| JArr (items : list json)
| JObj (items : list (string * json)).
#[local] Set Elimination Schemes.

(** Truth value testing, as [not v], [if v] and [a or b] use it. *)
Definition truthy (v : json) : bool :=
  match v with
  | JNull => false
  | JBool b => b
  | JInt n => negb (Z.eqb n 0)
  | JFloat x => negb (PrimFloat.eqb x 0%float)
  | JStr s => negb (String.eqb s "")
  | JArr items => match items with [] => false | _ :: _ => true end
  | JObj items => match items with [] => false | _ :: _ => true end
  end.

(** Truth value of a [str | None]. *)
Definition truthy_str (o : option string) : bool :=
  match o with
  | None => false
  | Some s => negb (String.eqb s "")
  end.

(** [x != y] on [str | None] values. *)
Definition str_ne (x y : option string) : bool :=
  match x, y with
  | None, None => false
  | Some a, Some b => negb (String.eqb a b)
  | _, _ => true
  end.

(** [f"{o}"] for a [str | None]. *)
Definition fmt (o : option string) : string :=
  match o with
  | None => "None"
  | Some s => s
  end.

(** The exceptions the code can meet. All of them derive from [Exception]. *)
Inductive exn : Type :=
| PyException (msg : string)                      (* raise Exception(msg) *)
| HTTPException (status_code : Z) (detail : string)
| AttributeError                                  (* v.get on a non-dict *)
| IndexError
| JSONDecodeError
| UnicodeDecodeError
| UnicodeEncodeError
| TransportError                                  (* httpx: network, timeout *)
| NotFound                                        (* google.api_core *)
| AlreadyExists
| InvalidArgument
| ServiceError (why : string).                    (* permission, unavailable, ... *)

Inductive result (A : Type) : Type :=
| Ok (a : A)
| Raise (e : exn).
Arguments Ok {A} a.
Arguments Raise {A} e.

Fixpoint dict_lookup (k : string) (items : list (string * json)) : option json :=
  match items with
  | [] => None
  | (k', v) :: rest => if String.eqb k' k then Some v else dict_lookup k rest
  end.

(** [d.get(k, dflt)]; the attribute exists on a [dict] only. *)
Definition get_default (d : json) (k : string) (dflt : json) : result json :=
  match d with
  | JObj items => Ok (default dflt (dict_lookup k items))
  | _ => Raise AttributeError
  end.

(** [d.get(k)] *)
Definition get (d : json) (k : string) : result json := get_default d k JNull.

(** [s.split(sep)] for a separator of one character. *)
Fixpoint str_split (sep : ascii) (s : string) : list string :=
  match s with
  | EmptyString => [EmptyString]
  | String c rest =>
      if Ascii.eqb c sep then EmptyString :: str_split sep rest
      else match str_split sep rest with
           | [] => [String c EmptyString]
           | w :: ws => String c w :: ws
           end
  end.

(** [l[-1]] *)
Definition last_item {A : Type} (l : list A) : result A :=
  match last l with
  | Some x => Ok x
  | None => Raise IndexError
  end.

(** The library functions the repository calls but does not define. *)
Class PyLib : Type := {
  json_dumps : json -> string;              (* json.dumps(v) *)
  json_loads : string -> option json;       (* json.loads(s); None: it raises *)
  encode_utf8 : string -> option bytes;     (* s.encode("utf-8") *)
  decode_utf8 : bytes -> option string;     (* b.decode("utf-8") *)
  str_of : json -> string;                  (* str(v) for v not a str *)
  urlencode : list (string * string) -> string   (* urllib.parse.urlencode *)
}.

(** [f"{v}"] for a value that came from JSON. *)
Definition fmt_json `{PyLib} (v : json) : string :=
  match v with
  | JStr s => s
  | _ => str_of v
  end.

(* ===================================================================== *)
(** ** The outside world                                                  *)
(* ===================================================================== *)

(** An outbound call, as the trace records it. *)
Inductive call : Type :=
| HttpPost (url : string) (data : list (string * option string))
           (auth : option string * option string)
| HttpGet (url : string) (headers : list (string * string))
| GetSecret (name : string)
| CreateSecret (parent secret_id : string)
| AddSecretVersion (parent : string) (data : bytes)
| AccessSecretVersion (name : string)
| ListSecrets (parent : string).

Definition is_storage_call (c : call) : bool :=
  match c with
  | HttpPost _ _ _ | HttpGet _ _ => false
  | _ => true
  end.

Definition is_http_get (c : call) : bool :=
  match c with
  | HttpGet _ _ => true
  | _ => false
  end.

Definition is_add_version (c : call) : bool :=
  match c with
  | AddSecretVersion _ _ => true
  | _ => false
  end.

(** What happens to one call to Secret Manager: the service answers it; the
    call fails before it reaches the service (network, permission, deadline);
    or another onboarding request stores [data] under the secret
    [(project, secret_id)] first, and then the service answers. *)
Inductive fate : Type :=
| Served
| Fails (e : exn)
| Raced (project secret_id : string) (data : bytes).

(** The secrets of the service, by project and secret id, each with its
    versions, oldest first. *)
Record world : Type := {
  secrets : gmap (string * string) (list bytes);
  fates : list fate;
  trace : list call
}.

Definition M (A : Type) : Type := world -> result A * world.

Definition ret {A : Type} (a : A) : M A := fun w => (Ok a, w).

Definition raise {A : Type} (e : exn) : M A := fun w => (Raise e, w).

Definition bind {A B : Type} (m : M A) (k : A -> M B) : M B :=
  fun w =>
    match m w with
    | (Ok a, w') => k a w'
    | (Raise e, w') => (Raise e, w')
    end.

Notation "'let*' x ':=' m 'in' k" := (bind m (fun x => k))
  (at level 10, x name, m at level 100, k at level 200).

(** [try: m] with the exception, if any, handed to what follows. *)
Definition attempt {A : Type} (m : M A) : M (result A) :=
  fun w => let (r, w') := m w in (Ok r, w').

Definition lift {A : Type} (r : result A) : M A := fun w => (r, w).

Definition or_raise {A : Type} (e : exn) (o : option A) : M A :=
  match o with
  | Some a => ret a
  | None => raise e
  end.

Fixpoint for_each {A B : Type} (f : A -> M B) (l : list A) : M (list B) :=
  match l with
  | [] => ret []
  | x :: rest =>
      let* y := f x in
      let* ys := for_each f rest in
      ret (y :: ys)
  end.

(** *** Secret Manager *)

Definition id_char (c : ascii) : bool :=
  let n := N_of_ascii c in
  ((65 <=? n) && (n <=? 90) || (97 <=? n) && (n <=? 122)
   || (48 <=? n) && (n <=? 57) || (n =? 45) || (n =? 95))%N.

(** The service's rule for a secret id: 1 to 255 characters, each a letter,
    a digit, a hyphen or an underscore. *)
Definition valid_secret_id (s : string) : bool :=
  negb (String.eqb s "") && (String.length s <=? 255)%nat
  && forallb id_char (list_ascii_of_string s).

Definition slash : ascii := "/"%char.

(** [projects/<p>] *)
Definition project_of (parent : string) : option string :=
  match str_split slash parent with
  | [a; p] => if String.eqb a "projects" then Some p else None
  | _ => None
  end.

(** [projects/<p>/secrets/<s>] *)
Definition secret_of (name : string) : option (string * string) :=
  match str_split slash name with
  | [a; p; b; s] =>
      if String.eqb a "projects" && String.eqb b "secrets" then Some (p, s) else None
  | _ => None
  end.

(** [projects/<p>/secrets/<s>/versions/latest] *)
Definition latest_of (name : string) : option (string * string) :=
  match str_split slash name with
  | [a; p; b; s; c; v] =>
      if String.eqb a "projects" && String.eqb b "secrets"
         && String.eqb c "versions" && String.eqb v "latest"
      then Some (p, s) else None
  | _ => None
  end.

Definition secret_name (k : string * string) : string :=
  "projects/" +:+ k.1 +:+ "/secrets/" +:+ k.2.

Definition serve_get_secret (name : string)
    (σ : gmap (string * string) (list bytes)) : result unit * gmap (string * string) (list bytes) :=
  match secret_of name with
  | None => (Raise InvalidArgument, σ)
  | Some k =>
      match σ !! k with
      | Some _ => (Ok tt, σ)
      | None => (Raise NotFound, σ)
      end
  end.

Definition serve_create_secret (parent secret_id : string)
    (σ : gmap (string * string) (list bytes)) : result unit * gmap (string * string) (list bytes) :=
  match project_of parent with
  | None => (Raise InvalidArgument, σ)
  | Some p =>
      if valid_secret_id secret_id then
        match σ !! (p, secret_id) with
        | Some _ => (Raise AlreadyExists, σ)
        | None => (Ok tt, <[(p, secret_id) := []]> σ)
        end
      else (Raise InvalidArgument, σ)
  end.

Definition serve_add_secret_version (parent : string) (data : bytes)
    (σ : gmap (string * string) (list bytes)) : result unit * gmap (string * string) (list bytes) :=
  match secret_of parent with
  | None => (Raise InvalidArgument, σ)
  | Some k =>
      match σ !! k with
      | Some versions => (Ok tt, <[k := versions ++ [data]]> σ)
      | None => (Raise NotFound, σ)
      end
  end.

Definition serve_access_secret_version (name : string)
    (σ : gmap (string * string) (list bytes)) : result bytes * gmap (string * string) (list bytes) :=
  match latest_of name with
  | None => (Raise InvalidArgument, σ)
  | Some k =>
      match σ !! k with
      | Some versions =>
          match last versions with
          | Some data => (Ok data, σ)
          | None => (Raise NotFound, σ)
          end
      | None => (Raise NotFound, σ)
      end
  end.

Definition serve_list_secrets (parent : string)
    (σ : gmap (string * string) (list bytes)) : result (list string) * gmap (string * string) (list bytes) :=
  match project_of parent with
  | None => (Raise InvalidArgument, σ)
  | Some p =>
      (Ok (secret_name <$> filter (fun k => bool_decide (k.1 = p)) (map_to_list σ).*1), σ)
  end.

(** Another request's [create_or_update_secret], run to its end. *)
Definition other_onboarding (project secret_id : string) (data : bytes)
    (σ : gmap (string * string) (list bytes)) : gmap (string * string) (list bytes) :=
  if valid_secret_id secret_id
  then <[(project, secret_id) := default [] (σ !! (project, secret_id)) ++ [data]]> σ
  else σ.

(** One call to the service: it is logged, it takes the next fate, and the
    service answers unless the fate is [Fails]. *)
Definition rpc {A : Type} (c : call)
    (serve : gmap (string * string) (list bytes) -> result A * gmap (string * string) (list bytes)) : M A :=
  fun w =>
    let tr := trace w ++ [c] in
    match fates w with
    | [] | Served :: _ =>
        let (r, σ') := serve (secrets w) in
        (r, {| secrets := σ'; fates := tail (fates w); trace := tr |})
    | Fails e :: rest =>
        (Raise e, {| secrets := secrets w; fates := rest; trace := tr |})
    | Raced p s data :: rest =>
        let (r, σ') := serve (other_onboarding p s data (secrets w)) in
        (r, {| secrets := σ'; fates := rest; trace := tr |})
    end.

Definition get_secret (name : string) : M unit :=
  rpc (GetSecret name) (serve_get_secret name).

Definition create_secret (parent secret_id : string) : M unit :=
  rpc (CreateSecret parent secret_id) (serve_create_secret parent secret_id).

Definition add_secret_version (parent : string) (data : bytes) : M unit :=
  rpc (AddSecretVersion parent data) (serve_add_secret_version parent data).

Definition access_secret_version (name : string) : M bytes :=
  rpc (AccessSecretVersion name) (serve_access_secret_version name).

Definition list_secrets (parent : string) : M (list string) :=
  rpc (ListSecrets parent) (serve_list_secrets parent).

(** *** HTTP *)

(** An [httpx.Response]: its status and what [.json()] returns ([None]: it
    raises). *)
Record response : Type := {
  status_code : Z;
  body_json : option json
}.

(** The provider, for one request to the service. *)
Record internet : Type := {
  post : string -> list (string * option string) -> option string * option string
         -> result response;
  http_get : string -> list (string * string) -> result response;
  utcnow : string                     (* datetime.utcnow().isoformat() *)
}.

Definition log (c : call) : M unit :=
  fun w => (Ok tt, {| secrets := secrets w; fates := fates w; trace := trace w ++ [c] |}).

Definition client_post (net : internet) (url : string)
    (data : list (string * option string)) (auth : option string * option string) : M response :=
  let* _ := log (HttpPost url data auth) in
  lift (post net url data auth).

Definition client_get (net : internet) (url : string)
    (headers : list (string * string)) : M response :=
  let* _ := log (HttpGet url headers) in
  lift (http_get net url headers).

Definition response_json (r : response) : M json :=
  or_raise JSONDecodeError (body_json r).

(* ===================================================================== *)
(** ** app/secrets_manager.py                                             *)
(* ===================================================================== *)

Record SecretManagerClient : Type := {
  project_id : option string
}.

(** Lines 6-8, [SecretManagerClient(project_id)]. [service_client] is what
    [secretmanager.SecretManagerServiceClient()] does where the process runs:
    it returns the client, or it raises (when no credentials are found, for
    one). *)
Definition __init__ (service_client : result unit) (project : option string)
  : result SecretManagerClient :=
  match service_client with
  | Ok _ => Ok {| project_id := project |}
  | Raise e => Raise e
  end.

Section Adapter.
Context `{PyLib}.

Definition create_or_update_secret (self : SecretManagerClient)
    (secret_id payload : string) : M unit :=
  let parent := "projects/" +:+ fmt (project_id self) in
  let* found := attempt (get_secret (parent +:+ "/secrets/" +:+ secret_id)) in
  let* _ :=
    match found with
    | Ok _ => ret tt
    | Raise _ => create_secret parent secret_id
    end in
  let* data := or_raise UnicodeEncodeError (encode_utf8 payload) in
  add_secret_version (parent +:+ "/secrets/" +:+ secret_id) data.

(** The result is a Python value; [JNull] is [None]. *)
Definition get_secret_payload (self : SecretManagerClient)
    (secret_id : string) : M json :=
  let name := "projects/" +:+ fmt (project_id self) +:+ "/secrets/" +:+ secret_id
              +:+ "/versions/latest" in
  let* got :=
    attempt (let* data := access_secret_version name in
             let* payload := or_raise UnicodeDecodeError (decode_utf8 data) in
             or_raise JSONDecodeError (json_loads payload)) in
  match got with
  | Ok v => ret v
  | Raise _ => ret JNull
  end.

Definition list_spotify_secrets (self : SecretManagerClient)
    (prefix : string) : M (list string) :=
  let parent := "projects/" +:+ fmt (project_id self) in
  let* names := list_secrets parent in
  let* all_secrets := for_each (fun n => lift (last_item (str_split slash n))) names in
  ret (filter (fun n => String.prefix prefix n = true) all_secrets).

End Adapter.

(* ===================================================================== *)
(** ** app/main.py                                                        *)
(* ===================================================================== *)

(** The module's globals read from the environment. *)
Record settings : Type := {
  SPOTIFY_CLIENT_ID : option string;
  SPOTIFY_CLIENT_SECRET : option string;
  REDIRECT_URI : option string;
  SCOPES : string;
  APP_URL : option string;
  ADMIN_API_KEY : option string;
  GCP_PROJECT : option string;
  SPOTIFY_SECRET_PREFIX : string
}.

Definition default_scopes : string :=
  "user-read-private user-read-email user-read-recently-played user-top-read user-library-read playlist-read-private playlist-read-collaborative user-follow-read".

(** Lines 19-26: [os.getenv] over the environment, after [load_dotenv()]. *)
Definition read_settings (environ : gmap string string) : settings := {|
  SPOTIFY_CLIENT_ID := environ !! "SPOTIFY_CLIENT_ID";
  SPOTIFY_CLIENT_SECRET := environ !! "SPOTIFY_CLIENT_SECRET";
  REDIRECT_URI := environ !! "SPOTIFY_REDIRECT_URI";
  SCOPES := default default_scopes (environ !! "SCOPES");
  APP_URL := environ !! "APP_URL";
  ADMIN_API_KEY := environ !! "ADMIN_API_KEY";
  GCP_PROJECT := environ !! "GCP_PROJECT";
  SPOTIFY_SECRET_PREFIX := default "spotify1-refresh-" (environ !! "SPOTIFY_SECRET_PREFIX")
|}.

(** Lines 28-29. *)
Definition check_settings (cfg : settings) : result unit :=
  if negb (truthy_str (SPOTIFY_CLIENT_ID cfg) && truthy_str (SPOTIFY_CLIENT_SECRET cfg)
           && truthy_str (GCP_PROJECT cfg) && truthy_str (REDIRECT_URI cfg))
  then Raise (PyException "Missing required env variables.")
  else Ok tt.

(** Importing the module, lines 19-38: the settings are read and checked,
    then the adapter [sm] is made (line 38). The result is the settings and
    the adapter, or the exception that stops the process before it serves a
    request. *)
Definition startup (environ : gmap string string) (service_client : result unit)
  : result (settings * SecretManagerClient) :=
  let cfg := read_settings environ in
  match check_settings cfg with
  | Raise e => Raise e
  | Ok _ =>
      match __init__ service_client (GCP_PROJECT cfg) with
      | Raise e => Raise e
      | Ok sm => Ok (cfg, sm)
      end
  end.

Definition SPOTIFY_AUTHORIZE_URL : string := "https://accounts.spotify.com/authorize".
Definition SPOTIFY_TOKEN_URL : string := "https://accounts.spotify.com/api/token".
Definition SPOTIFY_ME_URL : string := "https://api.spotify.com/v1/me".

(** What a handler returns to FastAPI. *)
Inductive reply : Type :=
| TemplateResponse (name : string) (context : list (string * json))
| JSONResponse (content : json)
| RedirectResponse (url : string).

(** The status FastAPI answers with: an [HTTPException] gives its own status
    code, any other exception 500. *)
Definition http_status (r : result reply) : Z :=
  match r with
  | Ok (RedirectResponse _) => 307
  | Ok _ => 200
  | Raise (HTTPException code _) => code
  | Raise _ => 500
  end.

Definition hex_digit (d : Z) : ascii :=
  nth (Z.to_nat d) (list_ascii_of_string "0123456789abcdef") "0"%char.

(** [digits] hexadecimal digits of [n], most significant first. *)
Fixpoint hex (digits : nat) (n : Z) : string :=
  match digits with
  | O => ""
  | S d => hex d (n / 16) +:+ String (hex_digit (n mod 16)) ""
  end.

(** [uuid.uuid4().hex] of the UUID whose integer is [n]. *)
Definition uuid_hex (n : Z) : string := hex 32 n.

Definition error_page (message : string) : reply :=
  TemplateResponse "error.html" [("message", JStr message)].

Section Main.
Context `{PyLib}.
Variable cfg : settings.
Variable sm : SecretManagerClient.

(** [params] of [build_auth_url], with [uuid4] the integer of the UUID
    drawn by [uuid.uuid4()]. *)
Definition auth_params (state : option string) (uuid4 : Z) : list (string * option string) :=
  [ ("client_id", SPOTIFY_CLIENT_ID cfg);
    ("response_type", Some "code");
    ("redirect_uri", REDIRECT_URI cfg);
    ("scope", Some (SCOPES cfg));
    ("show_dialog", Some "true");
    ("response_mode", Some "query");
    ("prompt", Some "consent") ]
  ++ [ ("state", Some (if truthy_str state then fmt state
                       else "st-" +:+ substring 0 8 (uuid_hex uuid4))) ].

Definition build_auth_url (state : option string) (uuid4 : Z) : string :=
  SPOTIFY_AUTHORIZE_URL +:+ "?"
  +:+ urlencode (map (fun kv => (kv.1, fmt kv.2)) (auth_params state uuid4)).

Definition callback (net : internet) (code state : option string) : M reply :=
  if negb (truthy_str code) then raise (HTTPException 400 "Missing code parameter")
  else
    (* lines 82-86 log the request and swallow any failure to do so *)
    let auth := (SPOTIFY_CLIENT_ID cfg, SPOTIFY_CLIENT_SECRET cfg) in
    let data := [ ("grant_type", Some "authorization_code");
                  ("code", code);
                  ("redirect_uri", REDIRECT_URI cfg) ] in
    let* posted := attempt (client_post net SPOTIFY_TOKEN_URL data auth) in
    match posted with
    | Raise _ => ret (error_page "Spotify token exchange failed.")
    | Ok token_res =>
        if negb (Z.eqb (status_code token_res) 200)
        then ret (error_page "Failed to exchange code.")
        else
          let* token_json := response_json token_res in
          let* access_token := lift (get token_json "access_token") in
          let* refresh_token := lift (get token_json "refresh_token") in
          let* scope := lift (get token_json "scope") in
          if negb (truthy access_token) || negb (truthy refresh_token)
          then ret (error_page "Missing tokens.")
          else
            let* fetched :=
              attempt (client_get net SPOTIFY_ME_URL
                         [("Authorization", "Bearer " +:+ fmt_json access_token)]) in
            match fetched with
            | Raise _ => ret (error_page "Failed to fetch Spotify profile.")
            | Ok me_res =>
                if negb (Z.eqb (status_code me_res) 200)
                then ret (error_page "Spotify profile error.")
                else
                  let* me := response_json me_res in
                  let* spotify_user_id := lift (get me "id") in
                  let* display_name := lift (get_default me "display_name" (JStr "")) in
                  if negb (truthy spotify_user_id)
                  then ret (error_page "Profile missing ID.")
                  else
                    let secret_name := SPOTIFY_SECRET_PREFIX cfg +:+ fmt_json spotify_user_id in
                    let payload :=
                      json_dumps (JObj [ ("spotify_user_id", spotify_user_id);
                                         ("display_name", display_name);
                                         ("refresh_token", refresh_token);
                                         ("scope", scope);
                                         ("created_at", JStr (utcnow net)) ]) in
                    let* stored := attempt (create_or_update_secret sm secret_name payload) in
                    match stored with
                    | Raise _ => ret (error_page "Failed to store credentials.")
                    | Ok _ =>
                        ret (TemplateResponse "success.html"
                               [ ("display_name", display_name);
                                 ("spotify_user_id", spotify_user_id) ])
                    end
            end
    end.

(** The loop of [admin_users], [users] being the list built so far. *)
Fixpoint collect_users (secrets : list string) (users : list json) : M (list json) :=
  match secrets with
  | [] => ret users
  | secret_name :: rest =>
      let* payload := get_secret_payload sm secret_name in
      if truthy payload then
        let* uid := lift (get payload "spotify_user_id") in
        let* name := lift (get payload "display_name") in
        collect_users rest
          (users ++ [JObj [("spotify_user_id", uid); ("display_name", name)]])
      else collect_users rest users
  end.

Definition admin_users (x_api_key : option string) : M reply :=
  if str_ne x_api_key (ADMIN_API_KEY cfg) then raise (HTTPException 401 "Unauthorized")
  else
    let* secrets := list_spotify_secrets sm (SPOTIFY_SECRET_PREFIX cfg) in
    let* users := collect_users secrets [] in
    ret (JSONResponse (JArr users)).

Definition get_token (spotify_user_id : string) (x_api_key : option string) : M reply :=
  if str_ne x_api_key (ADMIN_API_KEY cfg) then raise (HTTPException 401 "Unauthorized")
  else
    let* payload := get_secret_payload sm (SPOTIFY_SECRET_PREFIX cfg +:+ spotify_user_id) in
    if negb (truthy payload) then raise (HTTPException 404 "User not found")
    else ret (JSONResponse payload).

End Main.

(** *** The pages that start the flow *)

(** [GET /]: the handler returns the path, and its response class makes a
    redirect of it. *)
Definition root_redirect : reply := RedirectResponse "/connect".

(** [GET /connect], with [uuid4] the UUID drawn by [build_auth_url]. *)
Definition index `{PyLib} (cfg : settings) (uuid4 : Z) : reply :=
  let login_url := build_auth_url cfg None uuid4 in
  TemplateResponse "index.html" [("login_url", JStr login_url)].

(** [GET /auth/login] *)
Definition login `{PyLib} (cfg : settings) (uuid4 : Z) : reply :=
  RedirectResponse (build_auth_url cfg None uuid4).

(* ===================================================================== *)
(** ** A library instance for ASCII data                                  *)
(* ===================================================================== *)

(** The embedding above holds for every [PyLib]. To run it, this instance
    implements the library on the data the examples use: text in ASCII, JSON
    without floats and without characters that need an escape, and on the
    reading side objects whose values are strings or [null]. *)
Module Plain.

Definition quote : ascii := ascii_of_nat 34.
Definition backslash : ascii := ascii_of_nat 92.

Definition quoted (s : string) : string :=
  String quote (s +:+ String quote "").

Fixpoint dumps (v : json) : string :=
  match v with
  | JNull => "null"
  | JBool true => "true"
  | JBool false => "false"
  | JInt n => pretty n
  | JFloat _ => "NaN"
  | JStr s => quoted s
  | JArr items => "[" +:+ String.concat ", " (List.map dumps items) +:+ "]"
  | JObj items =>
      "{" +:+ String.concat ", "
                (List.map (fun kv => match kv with
                                     | (k, x) => quoted k +:+ ": " +:+ dumps x
                                     end) items)
      +:+ "}"
  end.

(** The characters up to the closing quote, and what follows it. *)
Fixpoint read_string (s : string) : option (string * string) :=
  match s with
  | EmptyString => None
  | String c rest =>
      if Ascii.eqb c quote then Some ("", rest)
      else if Ascii.eqb c backslash then None
      else match read_string rest with
           | Some (a, after) => Some (String c a, after)
           | None => None
           end
  end.

(** [s] without the prefix [p]. *)
Fixpoint strip (p s : string) : option string :=
  match p, s with
  | EmptyString, _ => Some s
  | String a p', String b s' => if Ascii.eqb a b then strip p' s' else None
  | _, _ => None
  end.

Definition read_value (s : string) : option (json * string) :=
  match s with
  | String c rest =>
      if Ascii.eqb c quote then
        match read_string rest with
        | Some (a, after) => Some (JStr a, after)
        | None => None
        end
      else match strip "null" s with
           | Some after => Some (JNull, after)
           | None => None
           end
  | EmptyString => None
  end.

(** The items of an object, [s] being the text after its opening brace. *)
Fixpoint read_items (fuel : nat) (s : string) : option (list (string * json)) :=
  match fuel with
  | O => None
  | S fuel' =>
      match s with
      | String c rest =>
          if Ascii.eqb c quote then
            match read_string rest with
            | Some (k, r1) =>
                match strip ": " r1 with
                | Some r2 =>
                    match read_value r2 with
                    | Some (x, r3) =>
                        if String.eqb r3 "}" then Some [(k, x)]
                        else match strip ", " r3 with
                             | Some r4 =>
                                 match read_items fuel' r4 with
                                 | Some l => Some ((k, x) :: l)
                                 | None => None
                                 end
                             | None => None
                             end
                    | None => None
                    end
                | None => None
                end
            | None => None
            end
          else None
      | EmptyString => None
      end
  end.

Definition loads (s : string) : option json :=
  match strip "{" s with
  | Some rest =>
      if String.eqb rest "}" then Some (JObj [])
      else match read_items (String.length s) rest with
           | Some l => Some (JObj l)
           | None => None
           end
  | None => None
  end.

Definition is_ascii (c : ascii) : bool := (N_of_ascii c <? 128)%N.

Definition encode (s : string) : option bytes :=
  if forallb is_ascii (list_ascii_of_string s) then Some (list_byte_of_string s) else None.

Definition decode (b : bytes) : option string :=
  let s := string_of_list_byte b in
  if forallb is_ascii (list_ascii_of_string s) then Some s else None.

Definition str (v : json) : string :=
  match v with
  | JNull => "None"
  | JBool true => "True"
  | JBool false => "False"
  | _ => dumps v
  end.

Definition unreserved (c : ascii) : bool :=
  let n := N_of_ascii c in
  ((65 <=? n) && (n <=? 90) || (97 <=? n) && (n <=? 122) || (48 <=? n) && (n <=? 57)
   || (n =? 95) || (n =? 46) || (n =? 45) || (n =? 126))%N.

Definition upper_hex_digit (d : N) : ascii :=
  nth (N.to_nat d) (list_ascii_of_string "0123456789ABCDEF") "0"%char.

(** [urllib.parse.quote_plus] *)
Fixpoint quote_plus (s : string) : string :=
  match s with
  | EmptyString => ""
  | String c rest =>
      if unreserved c then String c (quote_plus rest)
      else if Ascii.eqb c " " then String "+" (quote_plus rest)
      else String "%" (String (upper_hex_digit (N_of_ascii c / 16))
                         (String (upper_hex_digit (N_of_ascii c mod 16)) (quote_plus rest)))
  end.

Definition encode_query (query : list (string * string)) : string :=
  String.concat "&" (List.map (fun kv => quote_plus kv.1 +:+ "=" +:+ quote_plus kv.2) query).

Definition lib : PyLib := {|
  json_dumps := dumps;
  json_loads := loads;
  encode_utf8 := encode;
  decode_utf8 := decode;
  str_of := str;
  urlencode := encode_query
|}.

End Plain.

(* ===================================================================== *)
(** ** Reading the world                                                  *)
(* ===================================================================== *)

(** The secrets the service answers the next call from. *)
Definition answering (w : world) : gmap (string * string) (list bytes) :=
  match fates w with
  | Raced p s data :: _ => other_onboarding p s data (secrets w)
  | _ => secrets w
  end.

(** The world after a call to the service that left it the secrets [σ]. *)
Definition after (c : call) (σ : gmap (string * string) (list bytes)) (w : world) : world :=
  {| secrets := σ; fates := tail (fates w); trace := trace w ++ [c] |}.

(** The world after an HTTP call. *)
Definition logged (c : call) (w : world) : world :=
  {| secrets := secrets w; fates := fates w; trace := trace w ++ [c] |}.

Definition is_race (f : fate) : bool :=
  match f with
  | Raced _ _ _ => true
  | _ => false
  end.

(** No other request writes to the store during the calls to come. *)
Definition no_race (w : world) : bool := forallb (fun f => negb (is_race f)) (fates w).

(** The next call to the service reaches it. *)
Definition reachable (w : world) : bool :=
  match fates w with
  | Fails _ :: _ => false
  | _ => true
  end.

(** Neither part holds a slash, so that [projects/<p>/secrets/<s>] names the
    secret [(p, s)]. *)
Definition names_a_secret (p s : string) : bool :=
  bool_decide (str_split slash p = [p]) && bool_decide (str_split slash s = [s]).

(** Every secret of the store has an id without a slash. *)
Definition well_named (σ : gmap (string * string) (list bytes)) : Prop :=
  map_Forall (fun k _ => str_split slash k.2 = [k.2]) σ.

Definition occurrences (x : string) (l : list string) : nat :=
  length (filter (fun y => y = x) l).

Section Reading.
Context `{PyLib}.

(** The JSON value held by a version, [None] if it holds none. *)
Definition parsed (data : bytes) : json :=
  match decode_utf8 data with
  | None => JNull
  | Some payload => default JNull (json_loads payload)
  end.

(** [get_latest] in the words of the specification: absence when the store
    cannot be reached, when the secret does not exist or has no versions,
    and when the payload is not JSON; the parsed payload of the latest
    version otherwise. *)
Definition get_latest (self : SecretManagerClient) (secret_id : string) (w : world) : json :=
  if negb (reachable w) then JNull
  else if negb (names_a_secret (fmt (project_id self)) secret_id) then JNull
  else match answering w !! (fmt (project_id self), secret_id) with
       | None => JNull
       | Some versions =>
           match last versions with
           | None => JNull
           | Some data => parsed data
           end
       end.

End Reading.

(** A lowercase hexadecimal digit. *)
Definition is_hex (c : ascii) : bool :=
  let n := N_of_ascii c in
  ((48 <=? n) && (n <=? 57) || (97 <=? n) && (n <=? 102))%N.

(** *** Reading a URL *)

(** The value of a hexadecimal digit, in either case. *)
Definition hex_value (c : ascii) : option N :=
  let n := N_of_ascii c in
  if ((48 <=? n) && (n <=? 57))%N then Some (n - 48)%N
  else if ((65 <=? n) && (n <=? 70))%N then Some (n - 55)%N
  else if ((97 <=? n) && (n <=? 102))%N then Some (n - 87)%N
  else None.

(** [urllib.parse.unquote_plus], on the bytes of the text: a [+] is a space,
    [%XY] is the byte with the hexadecimal digits [XY], and a [%] that no two
    digits follow stands for itself. *)
Fixpoint unquote_plus (s : string) : string :=
  match s with
  | EmptyString => EmptyString
  | String c rest =>
      if Ascii.eqb c "+" then String " " (unquote_plus rest)
      else if Ascii.eqb c "%" then
        match rest with
        | String a (String b rest') =>
            match hex_value a, hex_value b with
            | Some x, Some y => String (ascii_of_N (16 * x + y)) (unquote_plus rest')
            | _, _ => String c (unquote_plus rest)
            end
        | _ => String c (unquote_plus rest)
        end
      else String c (unquote_plus rest)
  end.

(** What follows the first [?] of a URL. *)
Fixpoint query_of (url : string) : string :=
  match url with
  | EmptyString => EmptyString
  | String c rest => if Ascii.eqb c "?" then rest else query_of rest
  end.

(** [name_value.split("=", 1)], with an empty value when there is no [=]. *)
Fixpoint split_pair (name_value : string) : string * string :=
  match name_value with
  | EmptyString => (EmptyString, EmptyString)
  | String c rest =>
      if Ascii.eqb c "=" then (EmptyString, rest)
      else (String c (split_pair rest).1, (split_pair rest).2)
  end.

(** [urllib.parse.parse_qsl(query, keep_blank_values=True)]: the fields
    between the [&], the empty ones left out, each as its name and value. *)
Definition parse_qsl (query : string) : list (string * string) :=
  map (fun name_value => (unquote_plus (split_pair name_value).1,
                          unquote_plus (split_pair name_value).2))
      (filter (fun name_value => String.eqb name_value "" = false)
              (str_split "&" query)).

(** The values a URL carries for the parameter [k], in the order they come. *)
Definition url_params (k : string) (url : string) : list string :=
  map snd (filter (fun kv => String.eqb kv.1 k = true) (parse_qsl (query_of url))).

Definition is_served (f : fate) : bool :=
  match f with
  | Served => true
  | _ => false
  end.

(** The service answers every call to come, and no other request writes. *)
Definition calm (w : world) : bool := forallb is_served (fates w).

(** The store has lost nothing: each secret of [σ] is in [σ'] with the same
    versions, followed by those added since. *)
Definition grown (σ σ' : gmap (string * string) (list bytes)) : Prop :=
  forall k versions, σ !! k = Some versions ->
                     exists added, σ' !! k = Some (versions ++ added).

(** What [admin_users] lists for a stored object. *)
Definition user_entry (items : list (string * json)) : json :=
  JObj [ ("spotify_user_id", default JNull (dict_lookup "spotify_user_id" items));
         ("display_name", default JNull (dict_lookup "display_name" items)) ].

(** The users listed for the payloads read, in order: one for each object
    that is not empty. *)
Fixpoint users_of (payloads : list json) : list json :=
  match payloads with
  | [] => []
  | JObj (item :: items) :: rest => user_entry (item :: items) :: users_of rest
  | _ :: rest => users_of rest
  end.

(* ===================================================================== *)
(** ** Scenarios                                                          *)
(* ===================================================================== *)

(** Concrete environments, providers and worlds on which the model runs. *)
Module Scenario.

(** Every variable but [APP_URL]. *)
Definition environ_no_app_url : gmap string string :=
  list_to_map [ ("SPOTIFY_CLIENT_ID", "cid"); ("SPOTIFY_CLIENT_SECRET", "shh");
                ("SPOTIFY_REDIRECT_URI", "https://app.example/auth/callback");
                ("ADMIN_API_KEY", "k3y"); ("GCP_PROJECT", "proj") ].

(** Every variable but [GCP_PROJECT]. *)
Definition environ_no_project : gmap string string :=
  list_to_map [ ("SPOTIFY_CLIENT_ID", "cid"); ("SPOTIFY_CLIENT_SECRET", "shh");
                ("SPOTIFY_REDIRECT_URI", "https://app.example/auth/callback");
                ("APP_URL", "https://app.example");
                ("ADMIN_API_KEY", "k3y") ].

(** Every variable but [ADMIN_API_KEY]. *)
Definition environ_no_admin_key : gmap string string :=
  list_to_map [ ("SPOTIFY_CLIENT_ID", "cid"); ("SPOTIFY_CLIENT_SECRET", "shh");
                ("SPOTIFY_REDIRECT_URI", "https://app.example/auth/callback");
                ("APP_URL", "https://app.example");
                ("GCP_PROJECT", "proj") ].

Definition cfg : settings := read_settings environ_no_app_url.
Definition sm : SecretManagerClient := {| project_id := GCP_PROJECT cfg |}.

Definition answer (status : Z) (body : json) : result response :=
  Ok {| status_code := status; body_json := Some body |}.

Definition tokens : json :=
  JObj [ ("access_token", JStr "AT1"); ("refresh_token", JStr "RT1");
         ("scope", JStr "user-read-email") ].

Definition profile : json := JObj [ ("id", JStr "u789"); ("display_name", JStr "Jane") ].

(** The provider that answers the exchange with [exchange] and the profile
    request with [me]. *)
Definition provider (exchange me : result response) : internet := {|
  post := fun _ _ _ => exchange;
  http_get := fun _ _ => me;
  utcnow := "2024-05-01T12:00:00"
|}.

(** An empty store that answers every call. *)
Definition quiet : world := {| secrets := ∅; fates := []; trace := [] |}.

(** What another onboarding of the same user stores. *)
Definition rival : bytes := list_byte_of_string "{}".

(** An empty store; the existence check is answered, and before the creation
    is, another request for the same user has stored its payload. *)
Definition raced : world := {|
  secrets := ∅;
  fates := [Served; Raced "proj" "spotify1-refresh-u789" rival];
  trace := []
|}.

(** An empty store; another request for the same user has stored its
    payload before the existence check is answered. *)
Definition preceded : world := {|
  secrets := ∅;
  fates := [Raced "proj" "spotify1-refresh-u789" rival; Served];
  trace := []
|}.

(** The settings and the adapter of a process started without
    [ADMIN_API_KEY]. *)
Definition keyless_cfg : settings := read_settings environ_no_admin_key.
Definition keyless_sm : SecretManagerClient := {| project_id := GCP_PROJECT keyless_cfg |}.

(** The world after that process has onboarded the user [u789]. *)
Definition onboarded : world :=
  (callback (H := Plain.lib) keyless_cfg keyless_sm
     (provider (answer 200 tokens) (answer 200 profile)) (Some "abc123") None quiet).2.

(** A store that cannot be reached: every call fails on permissions. *)
Definition locked : world := {|
  secrets := ∅;
  fates := [ Fails (ServiceError "permission denied");
             Fails (ServiceError "permission denied");
             Fails (ServiceError "permission denied") ];
  trace := []
|}.

(** [Plain.lib], reading the JSON text of the list [[1]] as well. *)
Definition reads_lists : PyLib := {|
  json_dumps := Plain.dumps;
  json_loads := fun s => if String.eqb s "[1]" then Some (JArr [JInt 1]) else Plain.loads s;
  encode_utf8 := Plain.encode;
  decode_utf8 := Plain.decode;
  str_of := Plain.str;
  urlencode := Plain.encode_query
|}.

(** A store whose one secret holds a JSON list. *)
Definition listy : world := {|
  secrets := {[ ("proj", "spotify1-refresh-u1") := [list_byte_of_string "[1]"] ]};
  fates := [];
  trace := []
|}.

End Scenario.

(* ===================================================================== *)
(** ** Strings and resource names                                         *)
(* ===================================================================== *)

Lemma append_nil (b : string) : "" +:+ b = b.
Proof. reflexivity. Qed.

Lemma append_cons (x : ascii) (a b : string) : String x a +:+ b = String x (a +:+ b).
Proof. reflexivity. Qed.

Lemma append_assoc (a b c : string) : (a +:+ b) +:+ c = a +:+ (b +:+ c).
Proof.
  induction a as [|x a IH]; [reflexivity |].
  by rewrite !append_cons, IH.
Qed.

Lemma str_split_nonempty (sep : ascii) (s : string) : str_split sep s <> [].
Proof.
  destruct s as [|c s]; simpl; [discriminate |].
  destruct (Ascii.eqb c sep); [discriminate |].
  destruct (str_split sep s); discriminate.
Qed.

Lemma str_split_app (sep : ascii) (a b : string) :
  str_split sep (a +:+ String sep b) = str_split sep a ++ str_split sep b.
Proof.
  induction a as [|c a IH]; [rewrite append_nil | rewrite append_cons]; simpl.
  - by rewrite Ascii.eqb_refl.
  - destruct (Ascii.eqb c sep); [by rewrite IH |].
    rewrite IH. pose proof (str_split_nonempty sep a) as Hne.
    destruct (str_split sep a); [done | reflexivity].
Qed.

(** A string splits into one piece exactly when it is that piece. *)
Lemma str_split_single (sep : ascii) (s x : string) :
  str_split sep s = [x] -> s = x.
Proof.
  revert x. induction s as [|c s IH]; simpl; intros x Hx.
  - congruence.
  - destruct (Ascii.eqb c sep).
    + inversion Hx as [[Hx1 Hx2]]. by destruct (str_split_nonempty sep s).
    + destruct (str_split sep s) as [|w ws] eqn:Hs;
        [by destruct (str_split_nonempty sep s) |].
      inversion Hx; subst. by rewrite (IH w eq_refl).
Qed.

Lemma str_split_free (sep : ascii) (s : string) :
  Forall (fun c => c <> sep) (list_ascii_of_string s) -> str_split sep s = [s].
Proof.
  induction s as [|c s IH]; simpl; intros Hs; [reflexivity |].
  inversion Hs as [|? ? Hc Hrest]; subst.
  destruct (Ascii.eqb_spec c sep) as [->|_]; [done |].
  by rewrite (IH Hrest).
Qed.

Lemma last_app_nonempty {A : Type} (l1 l2 : list A) :
  l2 <> [] -> last (l1 ++ l2) = last l2.
Proof.
  intros Hne. destruct l2 as [|x l2] using rev_ind; [done |].
  by rewrite app_assoc, !last_snoc.
Qed.

Lemma valid_secret_id_split (s : string) :
  valid_secret_id s = true -> str_split slash s = [s].
Proof.
  unfold valid_secret_id. intros Hv.
  apply andb_true_iff in Hv as [_ Hv].
  apply str_split_free. rewrite forallb_forall in Hv.
  apply Forall_forall. intros c Hc ->.
  apply list_elem_of_In, Hv in Hc. discriminate Hc.
Qed.

Lemma prefix_append (p s : string) : String.prefix p (p +:+ s) = true.
Proof.
  induction p as [|c p IH]; [rewrite append_nil | rewrite append_cons]; simpl.
  - by destruct s.
  - destruct (ascii_dec c c); [exact IH | done].
Qed.

(** The name built for a secret resolves to that secret, and only when
    neither the project nor the secret id holds a slash. *)
Lemma secret_of_name (p s : string) (k : string * string) :
  secret_of ("projects/" +:+ p +:+ "/secrets/" +:+ s) = Some k ->
  k = (p, s) /\ str_split slash p = [p] /\ str_split slash s = [s].
Proof.
  unfold secret_of.
  change ("projects/" +:+ p +:+ "/secrets/" +:+ s)
    with ("projects" +:+ String slash (p +:+ String slash ("secrets" +:+ String slash s))).
  rewrite str_split_app.
  change (str_split slash "projects") with ["projects"].
  rewrite str_split_app, str_split_app.
  change (str_split slash "secrets") with ["secrets"].
  pose proof (str_split_nonempty slash p) as Hp.
  pose proof (str_split_nonempty slash s) as Hs.
  destruct (str_split slash p) as [|p0 ps] eqn:Ep; [done |].
  destruct (str_split slash s) as [|s0 ss] eqn:Es; [done |].
  destruct ps as [|p1 ps]; simpl.
  - destruct ss; [| done]. intros [= <-].
    pose proof (str_split_single _ _ _ Ep). pose proof (str_split_single _ _ _ Es).
    by subst.
  - destruct ps as [|p2 ps]; simpl; [done |]. by destruct ps.
Qed.

Lemma str_split_cases (sep : ascii) (s : string) :
  str_split sep s = [s] \/ exists a b l, str_split sep s = a :: b :: l.
Proof.
  destruct (str_split sep s) as [|a [|b l]] eqn:E.
  - by destruct (str_split_nonempty sep s).
  - left. by rewrite (str_split_single _ _ _ E).
  - right. eauto.
Qed.

Lemma names_a_secret_true (p s : string) :
  names_a_secret p s = true <-> str_split slash p = [p] /\ str_split slash s = [s].
Proof.
  unfold names_a_secret. rewrite andb_true_iff, !bool_decide_eq_true. tauto.
Qed.

Lemma secret_of_resolves (p s : string) :
  secret_of ("projects/" +:+ p +:+ "/secrets/" +:+ s)
  = if names_a_secret p s then Some (p, s) else None.
Proof.
  destruct (names_a_secret p s) eqn:E.
  - apply names_a_secret_true in E as [Ep Es]. unfold secret_of.
    change ("projects/" +:+ p +:+ "/secrets/" +:+ s)
      with ("projects" +:+ String slash (p +:+ String slash ("secrets" +:+ String slash s))).
    by rewrite !str_split_app, Ep, Es.
  - destruct (secret_of _) as [k|] eqn:Ek; [| done].
    apply secret_of_name in Ek as (_ & Ep & Es).
    assert (names_a_secret p s = true) as E'; [| congruence].
    by apply names_a_secret_true.
Qed.

Lemma latest_of_shape (name : string) (k : string * string) :
  latest_of name = Some k ->
  str_split slash name = ["projects"; k.1; "secrets"; k.2; "versions"; "latest"].
Proof.
  unfold latest_of.
  destruct (str_split slash name) as [|a [|p [|b [|s [|c [|v [|x l]]]]]]]; try done.
  destruct (String.eqb_spec a "projects"), (String.eqb_spec b "secrets"),
    (String.eqb_spec c "versions"), (String.eqb_spec v "latest"); simpl; try done.
  intros [= <-]. by subst.
Qed.

Lemma split_latest_name (p s : string) :
  str_split slash ("projects/" +:+ p +:+ "/secrets/" +:+ s +:+ "/versions/latest")
  = "projects" :: str_split slash p ++ "secrets" :: str_split slash s ++ ["versions"; "latest"].
Proof.
  change ("projects/" +:+ p +:+ "/secrets/" +:+ s +:+ "/versions/latest")
    with ("projects" +:+ String slash (p +:+ String slash ("secrets" +:+ String slash
            (s +:+ String slash ("versions" +:+ String slash "latest"))))).
  by rewrite !str_split_app.
Qed.

Lemma latest_of_resolves (p s : string) :
  latest_of ("projects/" +:+ p +:+ "/secrets/" +:+ s +:+ "/versions/latest")
  = if names_a_secret p s then Some (p, s) else None.
Proof.
  destruct (names_a_secret p s) eqn:E.
  - apply names_a_secret_true in E as [Ep Es].
    unfold latest_of. by rewrite split_latest_name, Ep, Es.
  - destruct (latest_of _) as [k|] eqn:Ek; [| done].
    apply latest_of_shape in Ek. rewrite split_latest_name in Ek.
    assert (names_a_secret p s = true) as E'; [| congruence].
    apply names_a_secret_true.
    pose proof (f_equal length Ek) as Hlen.
    simpl in Hlen. rewrite length_app in Hlen. simpl in Hlen.
    rewrite length_app in Hlen. simpl in Hlen.
    destruct (str_split_cases slash p) as [Hp|(a & b & l & Hp)];
      destruct (str_split_cases slash s) as [Hs|(a' & b' & l' & Hs)];
      rewrite ?Hp, ?Hs in Hlen; simpl in Hlen; try done; lia.
Qed.

Lemma project_of_resolves (p : string) :
  project_of ("projects/" +:+ p) = if bool_decide (str_split slash p = [p]) then Some p else None.
Proof.
  unfold project_of.
  change ("projects/" +:+ p) with ("projects" +:+ String slash p).
  rewrite str_split_app. change (str_split slash "projects") with ["projects"].
  case_bool_decide as Hp.
  - by rewrite Hp.
  - destruct (str_split_cases slash p) as [|(a & b & l & ->)]; done.
Qed.

(** The last piece of a secret's name is its id. *)
Lemma last_piece_of_name (k : string * string) :
  str_split slash k.2 = [k.2] ->
  last_item (str_split slash (secret_name k)) = Ok k.2.
Proof.
  intros Hk. unfold secret_name, last_item.
  change ("projects/" +:+ k.1 +:+ "/secrets/" +:+ k.2)
    with ("projects" +:+ String slash (k.1 +:+ String slash ("secrets" +:+ String slash k.2))).
  rewrite !str_split_app, !app_assoc, last_app_nonempty; rewrite Hk; done.
Qed.

(* ===================================================================== *)
(** ** Calls to the service                                               *)
(* ===================================================================== *)

Lemma rpc_reachable {A : Type} (c : call)
    (serve : gmap (string * string) (list bytes) -> result A * gmap (string * string) (list bytes))
    (w : world) :
  reachable w = true ->
  rpc c serve w = ((serve (answering w)).1, after c (serve (answering w)).2 w).
Proof.
  unfold rpc, reachable, answering, after.
  destruct (fates w) as [|[| |] rest]; try done; intros _; simpl;
    by destruct (serve _).
Qed.

Lemma rpc_unreachable {A : Type} (c : call)
    (serve : gmap (string * string) (list bytes) -> result A * gmap (string * string) (list bytes))
    (w : world) :
  reachable w = false ->
  exists e, head (fates w) = Some (Fails e)
            /\ rpc c serve w = (Raise e, after c (secrets w) w).
Proof.
  unfold rpc, reachable, after.
  destruct (fates w) as [|[| e |] rest]; try done. intros _. by exists e.
Qed.

Lemma answering_unreachable (w : world) : reachable w = false -> answering w = secrets w.
Proof. unfold reachable, answering. by destruct (fates w) as [|[| |] ?]. Qed.

Lemma answering_no_race (w : world) : no_race w = true -> answering w = secrets w.
Proof. unfold no_race, answering. by destruct (fates w) as [|[| |] ?]. Qed.

(* ===================================================================== *)
(** ** The authorization URL                                              *)
(* ===================================================================== *)

Lemma hex_digit_is_hex (d : Z) : is_hex (hex_digit d) = true.
Proof.
  unfold hex_digit.
  destruct (nth_in_or_default (Z.to_nat d)
              (list_ascii_of_string "0123456789abcdef") "0"%char) as [Hin| ->]; [| done].
  revert Hin. generalize (nth (Z.to_nat d) (list_ascii_of_string "0123456789abcdef") "0"%char).
  intros c Hc. simpl in Hc.
  repeat (destruct Hc as [<-|Hc]; [done |]). done.
Qed.

Lemma list_ascii_append (a b : string) :
  list_ascii_of_string (a +:+ b) = list_ascii_of_string a ++ list_ascii_of_string b.
Proof.
  induction a as [|c a IH]; [done |].
  rewrite append_cons. simpl. by rewrite IH.
Qed.

Lemma length_list_ascii (s : string) : length (list_ascii_of_string s) = String.length s.
Proof. induction s as [|c s IH]; simpl; [done | by rewrite IH]. Qed.

Lemma hex_chars (digits : nat) (n : Z) :
  length (list_ascii_of_string (hex digits n)) = digits
  /\ forallb is_hex (list_ascii_of_string (hex digits n)) = true.
Proof.
  revert n. induction digits as [|d IH]; intros n; [done |].
  simpl hex. rewrite list_ascii_append. destruct (IH (n / 16)) as [Hlen Hhex].
  split.
  - rewrite length_app, Hlen. simpl. lia.
  - rewrite forallb_app, Hhex. simpl. by rewrite hex_digit_is_hex.
Qed.

Lemma list_ascii_substring (n : nat) (s : string) :
  list_ascii_of_string (substring 0 n s) = take n (list_ascii_of_string s).
Proof.
  revert n. induction s as [|c s IH]; intros [|n]; simpl; try done.
  by rewrite IH.
Qed.

Lemma forallb_take {A : Type} (f : A -> bool) (n : nat) (l : list A) :
  forallb f l = true -> forallb f (take n l) = true.
Proof.
  revert n. induction l as [|x l IH]; intros [|n]; simpl; try done.
  intros [Hx Hl]%andb_true_iff. by rewrite Hx, IH.
Qed.

(** What [uuid.uuid4().hex[:8]] is made of. *)
Lemma fresh_token_chars (uuid4 : Z) :
  String.length (substring 0 8 (uuid_hex uuid4)) = 8%nat
  /\ forallb is_hex (list_ascii_of_string (substring 0 8 (uuid_hex uuid4))) = true.
Proof.
  destruct (hex_chars 32 uuid4) as [Hlen Hhex]. fold (uuid_hex uuid4) in Hlen, Hhex.
  rewrite <- length_list_ascii, list_ascii_substring. split.
  - rewrite length_take, Hlen. reflexivity.
  - by apply forallb_take.
Qed.

(** *** Reading the URL back *)

Lemma query_of_auth_url (query : string) :
  query_of (SPOTIFY_AUTHORIZE_URL +:+ "?" +:+ query) = query.
Proof. reflexivity. Qed.

(** The state a URL made by [build_auth_url] carries, for a library whose
    [urlencode] is read back by [parse_qsl]. *)
Lemma build_auth_url_reads `{PyLib} (cfg : settings) (state : option string) (uuid4 : Z) :
  (forall query, parse_qsl (urlencode query) = query) ->
  url_params "state" (build_auth_url cfg state uuid4)
  = [ if truthy_str state then fmt state
      else "st-" +:+ substring 0 8 (uuid_hex uuid4) ].
Proof.
  intros Hreads. unfold url_params, build_auth_url.
  rewrite query_of_auth_url, Hreads. reflexivity.
Qed.

(** [Plain.encode_query] is such a [urlencode]. *)
Lemma upper_hex_digit_value (d : N) :
  (d < 16)%N -> hex_value (Plain.upper_hex_digit d) = Some d.
Proof.
  intros Hd.
  assert (d = 0 \/ d = 1 \/ d = 2 \/ d = 3 \/ d = 4 \/ d = 5 \/ d = 6 \/ d = 7 \/ d = 8
          \/ d = 9 \/ d = 10 \/ d = 11 \/ d = 12 \/ d = 13 \/ d = 14 \/ d = 15)%N as Hcases
    by lia.
  repeat (destruct Hcases as [->|Hcases]; [reflexivity |]). by subst.
Qed.

Lemma upper_hex_digit_plain (d : N) (sep : ascii) :
  hex_value sep = None -> Plain.upper_hex_digit d <> sep.
Proof.
  intros Hsep Heq. destruct (N.lt_ge_cases d 16) as [Hd|Hd].
  - apply upper_hex_digit_value in Hd. congruence.
  - unfold Plain.upper_hex_digit in Heq. rewrite nth_overflow in Heq by (simpl; lia).
    by subst.
Qed.

Lemma unquote_plus_percent (a b : ascii) (x y : N) (rest : string) :
  hex_value a = Some x -> hex_value b = Some y ->
  unquote_plus (String "%" (String a (String b rest)))
  = String (ascii_of_N (16 * x + y)) (unquote_plus rest).
Proof. intros Ha Hb. cbn [unquote_plus]. simpl Ascii.eqb. cbv iota. by rewrite Ha, Hb. Qed.

Lemma unquote_plus_quote_plus (s : string) : unquote_plus (Plain.quote_plus s) = s.
Proof.
  induction s as [|c s IH]; [done |].
  cbn [Plain.quote_plus].
  destruct (Plain.unreserved c) eqn:Hu.
  - cbn [unquote_plus].
    destruct (Ascii.eqb_spec c "+") as [->|_]; [done |].
    destruct (Ascii.eqb_spec c "%") as [->|_]; [done |].
    by rewrite IH.
  - destruct (Ascii.eqb_spec c " ") as [->|_].
    + cbn [unquote_plus]. simpl Ascii.eqb. cbv iota. by rewrite IH.
    + pose proof (N_ascii_bounded c) as Hc.
      rewrite (unquote_plus_percent _ _ (N_of_ascii c / 16) (N_of_ascii c mod 16)).
      * rewrite IH. f_equal.
        rewrite <- N.div_mod by lia. apply ascii_N_embedding.
      * apply upper_hex_digit_value. apply N.Div0.div_lt_upper_bound. lia.
      * apply upper_hex_digit_value. apply N.mod_lt. lia.
Qed.

(** No [&] and no [=] is left in a quoted text. *)
Lemma quote_plus_free (sep : ascii) (s : string) :
  Plain.unreserved sep = false -> hex_value sep = None -> sep <> "+"%char -> sep <> "%"%char ->
  Forall (fun c => c <> sep) (list_ascii_of_string (Plain.quote_plus s)).
Proof.
  intros Hu Hh Hplus Hpercent. induction s as [|c s IH]; [constructor |].
  cbn [Plain.quote_plus].
  destruct (Plain.unreserved c) eqn:Hc.
  - simpl. constructor; [congruence | done].
  - destruct (Ascii.eqb c " "); simpl.
    + constructor; [congruence | done].
    + repeat constructor; try done; try congruence; by apply upper_hex_digit_plain.
Qed.

Lemma split_pair_app (name value : string) :
  Forall (fun c => c <> "="%char) (list_ascii_of_string name) ->
  split_pair (name +:+ "=" +:+ value) = (name, value).
Proof.
  induction name as [|c name IH]; intros Hfree.
  - reflexivity.
  - inversion Hfree as [|? ? Hc Hrest]; subst.
    rewrite append_cons. cbn [split_pair].
    destruct (Ascii.eqb_spec c "=") as [->|_]; [done |].
    by rewrite IH.
Qed.

Lemma parse_qsl_field (k v : string) :
  let field := Plain.quote_plus k +:+ "=" +:+ Plain.quote_plus v in
  str_split "&" field = [field]
  /\ String.eqb field "" = false
  /\ (unquote_plus (split_pair field).1, unquote_plus (split_pair field).2) = (k, v).
Proof.
  cbv zeta. split; [| split].
  - apply str_split_free. rewrite !list_ascii_append.
    rewrite !Forall_app. split; [by apply quote_plus_free |].
    split; [by repeat constructor | by apply quote_plus_free].
  - destruct (Plain.quote_plus k); reflexivity.
  - rewrite split_pair_app by by apply quote_plus_free.
    simpl. by rewrite !unquote_plus_quote_plus.
Qed.

Lemma encode_query_one (k v : string) :
  Plain.encode_query [(k, v)] = Plain.quote_plus k +:+ "=" +:+ Plain.quote_plus v.
Proof. reflexivity. Qed.

Lemma encode_query_more (k v : string) (kv : string * string)
    (query : list (string * string)) :
  Plain.encode_query ((k, v) :: kv :: query)
  = (Plain.quote_plus k +:+ "=" +:+ Plain.quote_plus v)
    +:+ String "&" (Plain.encode_query (kv :: query)).
Proof. reflexivity. Qed.

Lemma parse_qsl_encode_query (query : list (string * string)) :
  parse_qsl (Plain.encode_query query) = query.
Proof.
  induction query as [|[k v] query IH]; [reflexivity |].
  destruct (parse_qsl_field k v) as (Hsplit & Hne & Hkv).
  destruct query as [|kv query].
  - rewrite encode_query_one. unfold parse_qsl. rewrite Hsplit.
    rewrite filter_cons, Hne. rewrite decide_True by done.
    rewrite map_cons, Hkv. reflexivity.
  - rewrite encode_query_more. unfold parse_qsl in *.
    rewrite str_split_app, Hsplit. simpl app.
    rewrite filter_cons, Hne. rewrite decide_True by done.
    rewrite map_cons, Hkv. f_equal. apply IH.
Qed.

(** C10. In [build_auth_url] an empty [state] is treated as no state: in both
    cases the URL that is generated carries one [state] parameter, and it is
    ["st-"] followed by the first eight characters of the hexadecimal form of
    a fresh UUID, which are eight lowercase hexadecimal digits. A non-empty
    [state] is the one [state] parameter of the URL, unchanged. The URL is
    read as [parse_qsl] reads it, for a library whose [urlencode] it reads
    back. *)
Theorem build_auth_url_state `{PyLib} (cfg : settings) (uuid4 : Z) (c : ascii) (s : string) :
  (forall query, parse_qsl (urlencode query) = query) ->
  url_params "state" (build_auth_url cfg None uuid4)
    = [ "st-" +:+ substring 0 8 (uuid_hex uuid4) ]
  /\ url_params "state" (build_auth_url cfg (Some "") uuid4)
    = [ "st-" +:+ substring 0 8 (uuid_hex uuid4) ]
  /\ build_auth_url cfg (Some "") uuid4 = build_auth_url cfg None uuid4
  /\ String.length (substring 0 8 (uuid_hex uuid4)) = 8%nat
  /\ forallb is_hex (list_ascii_of_string (substring 0 8 (uuid_hex uuid4))) = true
  /\ url_params "state" (build_auth_url cfg (Some (String c s)) uuid4) = [ String c s ].
Proof.
  intros Hreads. destruct (fresh_token_chars uuid4) as [Hlen Hhex].
  rewrite !build_auth_url_reads by done.
  repeat split; done.
Qed.

(** C10 at a UUID whose hexadecimal form starts with [deadbeef], and at a
    state that needs quoting. *)
Lemma build_auth_url_state_witness :
  url_params "state"
    (build_auth_url (H := Plain.lib) Scenario.cfg None (3735928559 * 16 ^ 24 + 11))
    = [ "st-deadbeef" ]
  /\ url_params "state"
       (build_auth_url (H := Plain.lib) Scenario.cfg (Some "")
          (3735928559 * 16 ^ 24 + 11))
     = [ "st-deadbeef" ]
  /\ url_params "state"
       (build_auth_url (H := Plain.lib) Scenario.cfg (Some "a b&c=d")
          (3735928559 * 16 ^ 24 + 11))
     = [ "a b&c=d" ].
Proof.
  destruct (build_auth_url_state (H := Plain.lib) Scenario.cfg
              (3735928559 * 16 ^ 24 + 11) "a" " b&c=d" parse_qsl_encode_query)
    as (Hnone & Hempty & _ & _ & _ & Hgiven).
  split; [| split].
  - rewrite Hnone. vm_compute. reflexivity.
  - rewrite Hempty. vm_compute. reflexivity.
  - exact Hgiven.
Defined.

(** C8. A callback without [code] is answered with status 400 and leaves the
    world as it was: no token exchange, no profile fetch, no call to the
    store. An empty [code] fares the same. *)
Theorem callback_missing_code `{PyLib} (cfg : settings) (sm : SecretManagerClient)
    (net : internet) (state : option string) (w : world) :
  callback cfg sm net None state w
    = (Raise (HTTPException 400 "Missing code parameter"), w)
  /\ http_status (callback cfg sm net None state w).1 = 400
  /\ trace (callback cfg sm net None state w).2 = trace w
  /\ callback cfg sm net (Some "") state w = callback cfg sm net None state w.
Proof. done. Qed.

(** C5, the counterexample. Where the Secret Manager client can be made,
    the process starts without [APP_URL]. *)
Lemma startup_without_app_url :
  Scenario.environ_no_app_url !! "APP_URL" = None
  /\ startup Scenario.environ_no_app_url (Ok tt) = Ok (Scenario.cfg, Scenario.sm).
Proof. split; vm_compute; reflexivity. Qed.

(** C5, as amended. At startup the client identifier, the client secret, the
    redirect URI and the store project identifier are validated: the process
    raises, before it has settings or an adapter to serve a request with, if
    any one of them is absent. The check comes first: it raises whatever the
    making of the Secret Manager client would have done. *)
Theorem startup_validates_required (environ : gmap string string)
    (service_client : result unit) :
  environ !! "SPOTIFY_CLIENT_ID" = None \/ environ !! "SPOTIFY_CLIENT_SECRET" = None
  \/ environ !! "SPOTIFY_REDIRECT_URI" = None \/ environ !! "GCP_PROJECT" = None ->
  startup environ service_client = Raise (PyException "Missing required env variables.").
Proof.
  intros Habsent. unfold startup, check_settings, read_settings. simpl.
  destruct Habsent as [-> | [-> | [-> | ->]]]; simpl;
    rewrite ?andb_false_r; reflexivity.
Qed.

(** C5 at an environment that lacks [GCP_PROJECT]. *)
Lemma startup_validates_required_witness :
  Scenario.environ_no_project !! "GCP_PROJECT" = None
  /\ startup Scenario.environ_no_project (Ok tt)
     = Raise (PyException "Missing required env variables.").
Proof.
  split; [vm_compute; reflexivity |].
  apply (startup_validates_required Scenario.environ_no_project (Ok tt)).
  right; right; right. vm_compute. reflexivity.
Defined.

(* ===================================================================== *)
(** ** The adapter                                                        *)
(* ===================================================================== *)

(** C9. [get_secret_payload] never raises: for every adapter, secret name and
    world it returns a value, and that value is [get_latest]: [None] when the
    store cannot be reached, when the secret does not exist or has no
    versions, and when the latest payload is not JSON; the parsed payload of
    the latest version otherwise. The call made is the one access to the
    latest version. *)
Theorem get_secret_payload_never_raises `{PyLib} (self : SecretManagerClient)
    (secret_id : string) (w : world) :
  get_secret_payload self secret_id w
  = (Ok (get_latest self secret_id w),
     after (AccessSecretVersion ("projects/" +:+ fmt (project_id self) +:+ "/secrets/"
                                  +:+ secret_id +:+ "/versions/latest"))
           (answering w) w).
Proof.
  unfold get_secret_payload, get_latest, bind, attempt, access_secret_version.
  destruct (reachable w) eqn:Hr; simpl.
  - rewrite rpc_reachable by done.
    unfold serve_access_secret_version. rewrite latest_of_resolves.
    destruct (names_a_secret _ _); simpl; [| done].
    destruct (answering w !! _) as [versions|]; simpl; [| done].
    destruct (last versions) as [data|]; simpl; [| done].
    unfold parsed, or_raise, ret, raise.
    destruct (decode_utf8 data) as [payload|]; simpl; [| done].
    by destruct (json_loads payload).
  - destruct (rpc_unreachable (AccessSecretVersion
        ("projects/" +:+ fmt (project_id self) +:+ "/secrets/" +:+ secret_id
         +:+ "/versions/latest"))
        (serve_access_secret_version
           ("projects/" +:+ fmt (project_id self) +:+ "/secrets/" +:+ secret_id
            +:+ "/versions/latest")) w Hr) as (e & _ & ->).
    simpl. by rewrite answering_unreachable.
Qed.

Lemma rpc_trace {A : Type} (c : call)
    (serve : gmap (string * string) (list bytes) -> result A * gmap (string * string) (list bytes))
    (w : world) :
  trace (rpc c serve w).2 = trace w ++ [c] /\ fates (rpc c serve w).2 = tail (fates w).
Proof.
  unfold rpc. destruct (fates w) as [|[| |] rest]; simpl; try done;
    by destruct (serve _).
Qed.

(** A call that raises leaves the store as the service had it. *)
Lemma rpc_create_raises (parent secret_id : string) (e : exn) (w w' : world) :
  create_secret parent secret_id w = (Raise e, w') -> secrets w' = answering w.
Proof.
  unfold create_secret. destruct (reachable w) eqn:Hr.
  - rewrite rpc_reachable by done. unfold serve_create_secret.
    destruct (project_of parent); [| by intros [= _ <-]].
    destruct (valid_secret_id secret_id); [| by intros [= _ <-]].
    destruct (answering w !! _); [by intros [= _ <-] | done].
  - destruct (rpc_unreachable (CreateSecret parent secret_id)
                (serve_create_secret parent secret_id) w Hr) as (e' & _ & ->).
    intros [= _ <-]. simpl. by rewrite answering_unreachable.
Qed.

(** [create_or_update_secret] with the name of the secret written out. *)
Lemma create_or_update_secret_eq `{PyLib} (self : SecretManagerClient)
    (secret_id payload : string) :
  create_or_update_secret self secret_id payload
  = (let* found := attempt (get_secret ("projects/" +:+ fmt (project_id self)
                                        +:+ "/secrets/" +:+ secret_id)) in
     let* _ := match found with
               | Ok _ => ret tt
               | Raise _ => create_secret ("projects/" +:+ fmt (project_id self)) secret_id
               end in
     let* data := or_raise UnicodeEncodeError (encode_utf8 payload) in
     add_secret_version ("projects/" +:+ fmt (project_id self) +:+ "/secrets/" +:+ secret_id)
       data).
Proof. reflexivity. Qed.

(** When the existence check raises and the creation step then fails because
    the secret already exists, [create_or_update_secret] raises
    [AlreadyExists] to its caller and does not reach the append: it has made
    the two calls only, neither of them an add-version call, and has written
    nothing to the store. This holds for every adapter, payload and world. *)
Lemma create_collision_escapes `{PyLib} (self : SecretManagerClient)
    (secret_id payload : string) (e : exn) (w w1 w2 : world) :
  get_secret ("projects/" +:+ fmt (project_id self) +:+ "/secrets/" +:+ secret_id) w
    = (Raise e, w1) ->
  create_secret ("projects/" +:+ fmt (project_id self)) secret_id w1
    = (Raise AlreadyExists, w2) ->
  create_or_update_secret self secret_id payload w = (Raise AlreadyExists, w2)
  /\ trace w2 = trace w
                ++ [ GetSecret ("projects/" +:+ fmt (project_id self) +:+ "/secrets/"
                                +:+ secret_id);
                     CreateSecret ("projects/" +:+ fmt (project_id self)) secret_id ]
  /\ secrets w2 = answering w1.
Proof.
  intros Hget Hcreate.
  pose proof (rpc_trace (GetSecret ("projects/" +:+ fmt (project_id self) +:+ "/secrets/"
                                    +:+ secret_id))
                (serve_get_secret ("projects/" +:+ fmt (project_id self) +:+ "/secrets/"
                                   +:+ secret_id)) w) as [Ht1 _].
  pose proof (rpc_trace (CreateSecret ("projects/" +:+ fmt (project_id self)) secret_id)
                (serve_create_secret ("projects/" +:+ fmt (project_id self)) secret_id) w1)
    as [Ht2 _].
  fold (get_secret ("projects/" +:+ fmt (project_id self) +:+ "/secrets/" +:+ secret_id))
    in Ht1.
  fold (create_secret ("projects/" +:+ fmt (project_id self)) secret_id) in Ht2.
  rewrite Hget in Ht1. rewrite Hcreate in Ht2. simpl in Ht1, Ht2.
  repeat split.
  - rewrite create_or_update_secret_eq. unfold bind, attempt. rewrite Hget. simpl.
    by rewrite Hcreate.
  - by rewrite Ht2, Ht1, <- app_assoc.
  - by apply rpc_create_raises in Hcreate.
Qed.

(** C2, the code at the failing input. A first onboarding of [u789]: the
    existence check finds nothing, another request for the same user creates
    the secret and stores its payload, and the creation step fails with
    [AlreadyExists]. The adapter does not treat that as non-fatal:
    [create_or_update_secret] raises [AlreadyExists], makes no add-version
    call, and the payload is not stored; the only version of the secret is
    the other request's. [callback] on the same world shows the user the
    storage-failure page. Had the other request finished before the existence
    check, the same call would have found the secret and appended the payload
    as its second version. *)
Lemma create_or_update_secret_race :
  let out := create_or_update_secret (H := Plain.lib) Scenario.sm
               "spotify1-refresh-u789" "{}" Scenario.raced in
  let page := callback (H := Plain.lib) Scenario.cfg Scenario.sm
                (Scenario.provider (Scenario.answer 200 Scenario.tokens)
                   (Scenario.answer 200 Scenario.profile))
                (Some "abc123") None Scenario.raced in
  let late := create_or_update_secret (H := Plain.lib) Scenario.sm
                "spotify1-refresh-u789" "{}" Scenario.preceded in
  out.1 = Raise AlreadyExists
  /\ trace out.2 = [ GetSecret "projects/proj/secrets/spotify1-refresh-u789";
                     CreateSecret "projects/proj" "spotify1-refresh-u789" ]
  /\ filter (fun c => is_add_version c = true) (trace out.2) = []
  /\ secrets out.2 !! ("proj", "spotify1-refresh-u789") = Some [Scenario.rival]
  /\ page.1 = Ok (error_page "Failed to store credentials.")
  /\ filter (fun c => is_add_version c = true) (trace page.2) = []
  /\ secrets page.2 !! ("proj", "spotify1-refresh-u789") = Some [Scenario.rival]
  /\ late.1 = Ok tt
  /\ trace late.2 = [ GetSecret "projects/proj/secrets/spotify1-refresh-u789";
                      AddSecretVersion "projects/proj/secrets/spotify1-refresh-u789"
                        (list_byte_of_string "{}") ]
  /\ secrets late.2 !! ("proj", "spotify1-refresh-u789")
     = Some [Scenario.rival; list_byte_of_string "{}"].
Proof. vm_compute. done. Qed.

(* ===================================================================== *)
(** ** The callback                                                       *)
(* ===================================================================== *)

(** C6, the counterexample. The exchange is answered 201 with an access
    token and no refresh token: the outcome is the exchange failure. *)
Lemma callback_created_without_refresh_token :
  callback (H := Plain.lib) Scenario.cfg Scenario.sm
    (Scenario.provider (Scenario.answer 201 (JObj [("access_token", JStr "AT1")]))
                       (Scenario.answer 200 Scenario.profile))
    (Some "abc123") None Scenario.quiet
  = (Ok (error_page "Failed to exchange code."),
     logged (HttpPost SPOTIFY_TOKEN_URL
               [ ("grant_type", Some "authorization_code"); ("code", Some "abc123");
                 ("redirect_uri", REDIRECT_URI Scenario.cfg) ]
               (SPOTIFY_CLIENT_ID Scenario.cfg, SPOTIFY_CLIENT_SECRET Scenario.cfg))
            Scenario.quiet).
Proof. vm_compute. reflexivity. Qed.

(** C6, as amended. When the token exchange is answered with status 200 and a
    JSON object that lacks an access token or a refresh token (absent, or
    empty), the outcome is the missing-tokens page, and the one outbound call
    made is the exchange itself: no profile fetch and no call to the store. *)
Theorem callback_missing_tokens `{PyLib} (cfg : settings) (sm : SecretManagerClient)
    (net : internet) (code state : option string) (w : world)
    (token_res : response) (token_json : list (string * json)) :
  truthy_str code = true ->
  post net SPOTIFY_TOKEN_URL
    [ ("grant_type", Some "authorization_code"); ("code", code);
      ("redirect_uri", REDIRECT_URI cfg) ]
    (SPOTIFY_CLIENT_ID cfg, SPOTIFY_CLIENT_SECRET cfg) = Ok token_res ->
  status_code token_res = 200 ->
  body_json token_res = Some (JObj token_json) ->
  truthy (default JNull (dict_lookup "access_token" token_json)) = false
  \/ truthy (default JNull (dict_lookup "refresh_token" token_json)) = false ->
  callback cfg sm net code state w
  = (Ok (error_page "Missing tokens."),
     logged (HttpPost SPOTIFY_TOKEN_URL
               [ ("grant_type", Some "authorization_code"); ("code", code);
                 ("redirect_uri", REDIRECT_URI cfg) ]
               (SPOTIFY_CLIENT_ID cfg, SPOTIFY_CLIENT_SECRET cfg)) w)
  /\ filter (fun c => is_storage_call c = true) (trace (callback cfg sm net code state w).2)
     = filter (fun c => is_storage_call c = true) (trace w)
  /\ filter (fun c => is_http_get c = true) (trace (callback cfg sm net code state w).2)
     = filter (fun c => is_http_get c = true) (trace w).
Proof.
  intros Hcode Hpost Hstatus Hbody Hmissing.
  assert (callback cfg sm net code state w
          = (Ok (error_page "Missing tokens."),
             logged (HttpPost SPOTIFY_TOKEN_URL
                       [ ("grant_type", Some "authorization_code"); ("code", code);
                         ("redirect_uri", REDIRECT_URI cfg) ]
                       (SPOTIFY_CLIENT_ID cfg, SPOTIFY_CLIENT_SECRET cfg)) w)) as Hout.
  { unfold callback. rewrite Hcode. simpl.
    unfold bind, attempt, client_post, bind, log, lift. simpl.
    rewrite Hpost, Hstatus. simpl. unfold response_json. rewrite Hbody. simpl.
    destruct Hmissing as [-> | ->]; simpl; rewrite ?orb_true_r; reflexivity. }
  rewrite Hout. simpl. split; [reflexivity |].
  rewrite !filter_app. simpl. by rewrite !app_nil_r.
Qed.

(** C6 at an exchange answered 200 with an access token only. *)
Lemma callback_missing_tokens_witness :
  (callback (H := Plain.lib) Scenario.cfg Scenario.sm
     (Scenario.provider (Scenario.answer 200 (JObj [("access_token", JStr "AT1")]))
                        (Scenario.answer 200 Scenario.profile))
     (Some "abc123") None Scenario.quiet).1
  = Ok (error_page "Missing tokens.").
Proof.
  destruct (callback_missing_tokens (H := Plain.lib) Scenario.cfg Scenario.sm
              (Scenario.provider (Scenario.answer 200 (JObj [("access_token", JStr "AT1")]))
                                 (Scenario.answer 200 Scenario.profile))
              (Some "abc123") None Scenario.quiet
              {| status_code := 200; body_json := Some (JObj [("access_token", JStr "AT1")]) |}
              [("access_token", JStr "AT1")]) as (Hout & _);
    [reflexivity | reflexivity | reflexivity | reflexivity | right; reflexivity |].
  rewrite Hout. reflexivity.
Defined.

(** C7, the counterexample. The exchange succeeds and the profile request is
    answered 204 with an object without [id]: the outcome is the profile
    error, not the missing identity. *)
Lemma callback_profile_no_content :
  (callback (H := Plain.lib) Scenario.cfg Scenario.sm
     (Scenario.provider (Scenario.answer 200 Scenario.tokens)
                        (Scenario.answer 204 (JObj [("display_name", JStr "Jane")])))
     (Some "abc123") None Scenario.quiet).1
  = Ok (error_page "Spotify profile error.").
Proof. vm_compute. reflexivity. Qed.

(** C7, as amended. When the exchange has succeeded and the profile request
    is answered with status 200 and a JSON object without a non-empty [id],
    the outcome is the missing-identity page; the outbound calls made are the
    exchange and the profile fetch, and none to the store. *)
Theorem callback_missing_identity `{PyLib} (cfg : settings) (sm : SecretManagerClient)
    (net : internet) (code state : option string) (w : world)
    (token_res me_res : response) (token_json me : list (string * json))
    (access_token refresh_token : json) :
  truthy_str code = true ->
  post net SPOTIFY_TOKEN_URL
    [ ("grant_type", Some "authorization_code"); ("code", code);
      ("redirect_uri", REDIRECT_URI cfg) ]
    (SPOTIFY_CLIENT_ID cfg, SPOTIFY_CLIENT_SECRET cfg) = Ok token_res ->
  status_code token_res = 200 ->
  body_json token_res = Some (JObj token_json) ->
  dict_lookup "access_token" token_json = Some access_token ->
  truthy access_token = true ->
  dict_lookup "refresh_token" token_json = Some refresh_token ->
  truthy refresh_token = true ->
  http_get net SPOTIFY_ME_URL [("Authorization", "Bearer " +:+ fmt_json access_token)]
    = Ok me_res ->
  status_code me_res = 200 ->
  body_json me_res = Some (JObj me) ->
  truthy (default JNull (dict_lookup "id" me)) = false ->
  callback cfg sm net code state w
  = (Ok (error_page "Profile missing ID."),
     logged (HttpGet SPOTIFY_ME_URL [("Authorization", "Bearer " +:+ fmt_json access_token)])
       (logged (HttpPost SPOTIFY_TOKEN_URL
                  [ ("grant_type", Some "authorization_code"); ("code", code);
                    ("redirect_uri", REDIRECT_URI cfg) ]
                  (SPOTIFY_CLIENT_ID cfg, SPOTIFY_CLIENT_SECRET cfg)) w))
  /\ filter (fun c => is_storage_call c = true) (trace (callback cfg sm net code state w).2)
     = filter (fun c => is_storage_call c = true) (trace w).
Proof.
  intros Hcode Hpost Hstatus Hbody Hat Hat' Hrt Hrt' Hget Hstatus' Hbody' Hid.
  assert (callback cfg sm net code state w
          = (Ok (error_page "Profile missing ID."),
             logged (HttpGet SPOTIFY_ME_URL
                       [("Authorization", "Bearer " +:+ fmt_json access_token)])
               (logged (HttpPost SPOTIFY_TOKEN_URL
                          [ ("grant_type", Some "authorization_code"); ("code", code);
                            ("redirect_uri", REDIRECT_URI cfg) ]
                          (SPOTIFY_CLIENT_ID cfg, SPOTIFY_CLIENT_SECRET cfg)) w))) as Hout.
  { unfold callback. rewrite Hcode. simpl.
    unfold bind, attempt, client_post, client_get, bind, log, lift. simpl.
    rewrite Hpost, Hstatus. simpl. unfold response_json. rewrite Hbody. simpl.
    rewrite Hat, Hrt. simpl. rewrite Hat', Hrt'. simpl.
    rewrite Hget, Hstatus'. simpl. rewrite Hbody'. simpl.
    by rewrite Hid. }
  rewrite Hout. simpl. split; [reflexivity |].
  rewrite !filter_app. simpl. by rewrite !app_nil_r.
Qed.

(** C7 at a profile answered 200 with a display name and no id. *)
Lemma callback_missing_identity_witness :
  (callback (H := Plain.lib) Scenario.cfg Scenario.sm
     (Scenario.provider (Scenario.answer 200 Scenario.tokens)
                        (Scenario.answer 200 (JObj [("display_name", JStr "Jane")])))
     (Some "abc123") None Scenario.quiet).1
  = Ok (error_page "Profile missing ID.").
Proof.
  destruct (callback_missing_identity (H := Plain.lib) Scenario.cfg Scenario.sm
              (Scenario.provider (Scenario.answer 200 Scenario.tokens)
                 (Scenario.answer 200 (JObj [("display_name", JStr "Jane")])))
              (Some "abc123") None Scenario.quiet
              {| status_code := 200; body_json := Some Scenario.tokens |}
              {| status_code := 200;
                 body_json := Some (JObj [("display_name", JStr "Jane")]) |}
              [ ("access_token", JStr "AT1"); ("refresh_token", JStr "RT1");
                ("scope", JStr "user-read-email") ]
              [("display_name", JStr "Jane")] (JStr "AT1") (JStr "RT1")) as (Hout & _);
    [reflexivity .. |].
  rewrite Hout. reflexivity.
Defined.

(** An add-version call that returns has appended to a secret the service
    holds. *)
Lemma add_secret_version_ok (name : string) (data : bytes) (w w' : world) :
  add_secret_version name data w = (Ok tt, w') ->
  exists k versions,
    secret_of name = Some k /\ reachable w = true
    /\ answering w !! k = Some versions
    /\ w' = after (AddSecretVersion name data) (<[k := versions ++ [data]]> (answering w)) w.
Proof.
  unfold add_secret_version. destruct (reachable w) eqn:Hr.
  - rewrite rpc_reachable by done. unfold serve_add_secret_version.
    destruct (secret_of name) as [k|]; [| done].
    destruct (answering w !! k) as [versions|] eqn:Hk; [| done].
    simpl. intros [= <-]. by exists k, versions.
  - destruct (rpc_unreachable (AddSecretVersion name data)
                (serve_add_secret_version name data) w Hr) as (e & _ & ->). done.
Qed.

(** When [create_or_update_secret] returns, the payload is the latest version
    of the secret it names, and the last call made is the one that added it. *)
Lemma create_or_update_secret_ok `{PyLib} (self : SecretManagerClient)
    (secret_id payload : string) (w w' : world) :
  create_or_update_secret self secret_id payload w = (Ok tt, w') ->
  exists data versions,
    encode_utf8 payload = Some data
    /\ names_a_secret (fmt (project_id self)) secret_id = true
    /\ secrets w' !! (fmt (project_id self), secret_id) = Some (versions ++ [data])
    /\ last (trace w')
       = Some (AddSecretVersion ("projects/" +:+ fmt (project_id self) +:+ "/secrets/"
                                 +:+ secret_id) data).
Proof.
  rewrite create_or_update_secret_eq. unfold bind, attempt.
  destruct (get_secret _ w) as [found w1].
  assert (forall w2,
    (let* data := or_raise UnicodeEncodeError (encode_utf8 payload) in
     add_secret_version ("projects/" +:+ fmt (project_id self) +:+ "/secrets/" +:+ secret_id)
       data) w2 = (Ok tt, w') ->
    exists data versions,
      encode_utf8 payload = Some data
      /\ names_a_secret (fmt (project_id self)) secret_id = true
      /\ secrets w' !! (fmt (project_id self), secret_id) = Some (versions ++ [data])
      /\ last (trace w')
         = Some (AddSecretVersion ("projects/" +:+ fmt (project_id self) +:+ "/secrets/"
                                   +:+ secret_id) data)) as Happend.
  { intros w2. unfold bind, or_raise.
    destruct (encode_utf8 payload) as [data|]; [| done]. simpl.
    intros (k & versions & Hk & _ & Hv & ->)%add_secret_version_ok.
    rewrite secret_of_resolves in Hk.
    destruct (names_a_secret _ _) eqn:Hn; [| done]. injection Hk as <-.
    exists data, versions. repeat split; try done.
    - simpl. apply lookup_insert_eq.
    - simpl. apply last_snoc. }
  destruct found as [[]|e]; simpl.
  - apply Happend.
  - destruct (create_secret _ secret_id w1) as [[[]|e'] w2]; simpl; [apply Happend | done].
Qed.

(** C1, the counterexample. The exchange is answered 201 with both tokens,
    the profile request would be answered 200 with an id, the store answers
    every call: the outcome is the exchange failure and nothing is stored. *)
Lemma callback_exchange_created :
  let out := callback (H := Plain.lib) Scenario.cfg Scenario.sm
               (Scenario.provider (Scenario.answer 201 Scenario.tokens)
                                  (Scenario.answer 200 Scenario.profile))
               (Some "abc123") None Scenario.quiet in
  out.1 = Ok (error_page "Failed to exchange code.")
  /\ secrets out.2 = ∅
  /\ filter (fun c => is_storage_call c = true) (trace out.2) = [].
Proof. vm_compute. done. Qed.

(** C1, as amended. When the exchange is answered with status 200 and both
    tokens, the profile request with status 200 and a non-empty id, and
    [create_or_update_secret] returns, the callback answers with the success
    page carrying the profile's display name and id; the payload handed to
    the store is the JSON text of the record made of the profile's id and
    display name, the exchange's refresh token and scope, and the time of
    writing; and that payload is the latest version of the secret named by
    the configured prefix followed by the id. *)
Theorem callback_stores_record `{PyLib} (cfg : settings) (sm : SecretManagerClient)
    (net : internet) (code state : option string) (w w' : world)
    (token_res me_res : response) (token_json me : list (string * json))
    (access_token refresh_token spotify_user_id : json) :
  truthy_str code = true ->
  post net SPOTIFY_TOKEN_URL
    [ ("grant_type", Some "authorization_code"); ("code", code);
      ("redirect_uri", REDIRECT_URI cfg) ]
    (SPOTIFY_CLIENT_ID cfg, SPOTIFY_CLIENT_SECRET cfg) = Ok token_res ->
  status_code token_res = 200 ->
  body_json token_res = Some (JObj token_json) ->
  dict_lookup "access_token" token_json = Some access_token ->
  truthy access_token = true ->
  dict_lookup "refresh_token" token_json = Some refresh_token ->
  truthy refresh_token = true ->
  http_get net SPOTIFY_ME_URL [("Authorization", "Bearer " +:+ fmt_json access_token)]
    = Ok me_res ->
  status_code me_res = 200 ->
  body_json me_res = Some (JObj me) ->
  dict_lookup "id" me = Some spotify_user_id ->
  truthy spotify_user_id = true ->
  create_or_update_secret sm (SPOTIFY_SECRET_PREFIX cfg +:+ fmt_json spotify_user_id)
    (json_dumps
       (JObj [ ("spotify_user_id", spotify_user_id);
               ("display_name", default (JStr "") (dict_lookup "display_name" me));
               ("refresh_token", refresh_token);
               ("scope", default JNull (dict_lookup "scope" token_json));
               ("created_at", JStr (utcnow net)) ]))
    (logged (HttpGet SPOTIFY_ME_URL [("Authorization", "Bearer " +:+ fmt_json access_token)])
       (logged (HttpPost SPOTIFY_TOKEN_URL
                  [ ("grant_type", Some "authorization_code"); ("code", code);
                    ("redirect_uri", REDIRECT_URI cfg) ]
                  (SPOTIFY_CLIENT_ID cfg, SPOTIFY_CLIENT_SECRET cfg)) w))
    = (Ok tt, w') ->
  callback cfg sm net code state w
  = (Ok (TemplateResponse "success.html"
           [ ("display_name", default (JStr "") (dict_lookup "display_name" me));
             ("spotify_user_id", spotify_user_id) ]), w')
  /\ exists data versions,
       encode_utf8
         (json_dumps
            (JObj [ ("spotify_user_id", spotify_user_id);
                    ("display_name", default (JStr "") (dict_lookup "display_name" me));
                    ("refresh_token", refresh_token);
                    ("scope", default JNull (dict_lookup "scope" token_json));
                    ("created_at", JStr (utcnow net)) ])) = Some data
       /\ secrets w' !! (fmt (project_id sm),
                         SPOTIFY_SECRET_PREFIX cfg +:+ fmt_json spotify_user_id)
          = Some (versions ++ [data])
       /\ last (trace w')
          = Some (AddSecretVersion
                    ("projects/" +:+ fmt (project_id sm) +:+ "/secrets/"
                     +:+ SPOTIFY_SECRET_PREFIX cfg +:+ fmt_json spotify_user_id) data).
Proof.
  intros Hcode Hpost Hstatus Hbody Hat Hat' Hrt Hrt' Hget Hstatus' Hbody' Hid Hid' Hstore.
  split.
  - unfold callback. rewrite Hcode. simpl.
    unfold bind, attempt, client_post, client_get, bind, log, lift. simpl.
    rewrite Hpost, Hstatus. simpl. unfold response_json. rewrite Hbody. simpl.
    rewrite Hat, Hrt. simpl. rewrite Hat', Hrt'. simpl.
    rewrite Hget, Hstatus'. simpl. rewrite Hbody'. simpl.
    rewrite Hid. simpl. rewrite Hid'. simpl.
    unfold logged in Hstore. simpl in Hstore. by rewrite Hstore.
  - apply create_or_update_secret_ok in Hstore as (data & versions & He & _ & Hs & Hl).
    by exists data, versions.
Qed.

(** C1 at the end-to-end scenario: code [abc123], tokens [AT1] and [RT1],
    profile [u789] named Jane, on an empty store. *)
Lemma callback_stores_record_witness :
  let out := callback (H := Plain.lib) Scenario.cfg Scenario.sm
               (Scenario.provider (Scenario.answer 200 Scenario.tokens)
                                  (Scenario.answer 200 Scenario.profile))
               (Some "abc123") None Scenario.quiet in
  out.1 = Ok (TemplateResponse "success.html"
                [("display_name", JStr "Jane"); ("spotify_user_id", JStr "u789")])
  /\ (secrets out.2 !! ("proj", "spotify1-refresh-u789") ≫= last)
     = Plain.encode
         (Plain.dumps
            (JObj [ ("spotify_user_id", JStr "u789"); ("display_name", JStr "Jane");
                    ("refresh_token", JStr "RT1"); ("scope", JStr "user-read-email");
                    ("created_at", JStr "2024-05-01T12:00:00") ])).
Proof.
  destruct (callback_stores_record (H := Plain.lib) Scenario.cfg Scenario.sm
              (Scenario.provider (Scenario.answer 200 Scenario.tokens)
                                 (Scenario.answer 200 Scenario.profile))
              (Some "abc123") None Scenario.quiet
              (callback (H := Plain.lib) Scenario.cfg Scenario.sm
                 (Scenario.provider (Scenario.answer 200 Scenario.tokens)
                                    (Scenario.answer 200 Scenario.profile))
                 (Some "abc123") None Scenario.quiet).2
              {| status_code := 200; body_json := Some Scenario.tokens |}
              {| status_code := 200; body_json := Some Scenario.profile |}
              [ ("access_token", JStr "AT1"); ("refresh_token", JStr "RT1");
                ("scope", JStr "user-read-email") ]
              [ ("id", JStr "u789"); ("display_name", JStr "Jane") ]
              (JStr "AT1") (JStr "RT1") (JStr "u789"))
    as (Hout & data & versions & Hdata & Hstored & _);
    [reflexivity .. | vm_compute; reflexivity |].
  cbv zeta.
  change ("proj", "spotify1-refresh-u789")
    with (fmt (project_id Scenario.sm),
          SPOTIFY_SECRET_PREFIX Scenario.cfg +:+ fmt_json (H := Plain.lib) (JStr "u789")).
  rewrite Hstored, Hout. simpl. rewrite last_snoc.
  split; [reflexivity | symmetry; exact Hdata].
Defined.

(* ===================================================================== *)
(** ** Onboarding the same user twice                                     *)
(* ===================================================================== *)

(** A callback that answers with the success page has run
    [create_or_update_secret] to its end, on the secret named after the id
    the page carries, after two HTTP calls and no call to the store. *)
Lemma callback_success `{PyLib} (cfg : settings) (sm : SecretManagerClient)
    (net : internet) (code state : option string) (w w' : world)
    (context : list (string * json)) :
  callback cfg sm net code state w = (Ok (TemplateResponse "success.html" context), w') ->
  exists spotify_user_id display_name payload w1,
    context = [("display_name", display_name); ("spotify_user_id", spotify_user_id)]
    /\ secrets w1 = secrets w /\ fates w1 = fates w
    /\ filter (fun c => is_add_version c = true) (trace w1)
       = filter (fun c => is_add_version c = true) (trace w)
    /\ create_or_update_secret sm (SPOTIFY_SECRET_PREFIX cfg +:+ fmt_json spotify_user_id)
         payload w1 = (Ok tt, w').
Proof.
  unfold callback.
  destruct (truthy_str code); simpl; [| done].
  unfold bind at 1, attempt at 1, client_post, bind at 1, log, lift at 1. simpl.
  destruct (post net _ _ _) as [token_res|e]; simpl; [| done].
  destruct (Z.eqb (status_code token_res) 200); simpl; [| done].
  unfold bind at 1, response_json, or_raise.
  destruct (body_json token_res) as [token_json|]; simpl; [| done].
  unfold bind at 1, lift at 1.
  destruct (get token_json "access_token") as [access_token|]; simpl; [| done].
  unfold bind at 1, lift at 1.
  destruct (get token_json "refresh_token") as [refresh_token|]; simpl; [| done].
  unfold bind at 1, lift at 1.
  destruct (get token_json "scope") as [scope|]; simpl; [| done].
  destruct (negb (truthy access_token) || negb (truthy refresh_token)); simpl; [done |].
  unfold bind at 1, attempt at 1, client_get, bind at 1, log, lift at 1. simpl.
  destruct (http_get net _ _) as [me_res|e]; simpl; [| done].
  destruct (Z.eqb (status_code me_res) 200); simpl; [| done].
  unfold bind at 1.
  destruct (body_json me_res) as [me|]; simpl; [| done].
  unfold bind at 1, lift at 1.
  destruct (get me "id") as [spotify_user_id|]; simpl; [| done].
  unfold bind at 1, lift at 1.
  destruct (get_default me "display_name" (JStr "")) as [display_name|]; simpl; [| done].
  destruct (truthy spotify_user_id); simpl; [| done].
  unfold bind at 1, attempt at 1.
  destruct (create_or_update_secret sm _ _ _) as [[[]|e] w2] eqn:Hstore; simpl; [| done].
  intros [= <- <-].
  eexists spotify_user_id, display_name, _, _. split; [reflexivity |].
  split; [| split; [| split; [| exact Hstore]]]; simpl; try reflexivity.
  rewrite !filter_app. simpl. by rewrite !app_nil_r.
Qed.

Lemma no_race_after (c : call) (σ : gmap (string * string) (list bytes)) (w : world) :
  no_race w = true -> no_race (after c σ w) = true.
Proof.
  unfold no_race, after. simpl. destruct (fates w) as [|f rest]; simpl; [done |].
  by intros [_ ?]%andb_true_iff.
Qed.

Lemma answering_after (c : call) (σ : gmap (string * string) (list bytes)) (w : world) :
  no_race w = true -> answering (after c σ w) = σ.
Proof.
  intros Hw. by rewrite answering_no_race by by apply no_race_after.
Qed.

(** The existence check leaves the store as the service had it. *)
Lemma get_secret_step (name : string) (w : world) :
  (get_secret name w).2 = after (GetSecret name) (answering w) w.
Proof.
  unfold get_secret. destruct (reachable w) eqn:Hr.
  - rewrite rpc_reachable by done. unfold serve_get_secret. simpl.
    by repeat case_match.
  - destruct (rpc_unreachable (GetSecret name) (serve_get_secret name) w Hr)
      as (e & _ & ->).
    simpl. by rewrite answering_unreachable.
Qed.

Lemma get_secret_found (name : string) (w w' : world) :
  get_secret name w = (Ok tt, w') ->
  exists k versions, secret_of name = Some k /\ answering w !! k = Some versions.
Proof.
  unfold get_secret. destruct (reachable w) eqn:Hr.
  - rewrite rpc_reachable by done. unfold serve_get_secret.
    destruct (secret_of name) as [k|]; [| done].
    destruct (answering w !! k) as [versions|] eqn:Hk; [| done]. eauto.
  - destruct (rpc_unreachable (GetSecret name) (serve_get_secret name) w Hr)
      as (e & _ & ->). done.
Qed.

(** A creation that returns has made a secret that was not there, with no
    version yet. *)
Lemma create_secret_ok (parent secret_id : string) (w w' : world) :
  create_secret parent secret_id w = (Ok tt, w') ->
  exists p, project_of parent = Some p
            /\ valid_secret_id secret_id = true
            /\ answering w !! (p, secret_id) = None
            /\ w' = after (CreateSecret parent secret_id)
                      (<[(p, secret_id) := []]> (answering w)) w.
Proof.
  unfold create_secret. destruct (reachable w) eqn:Hr.
  - rewrite rpc_reachable by done. unfold serve_create_secret.
    destruct (project_of parent) as [p|]; [| done].
    destruct (valid_secret_id secret_id); [| done].
    destruct (answering w !! (p, secret_id)) eqn:Hk; [done |].
    simpl. intros [= <-]. by exists p.
  - destruct (rpc_unreachable (CreateSecret parent secret_id)
                (serve_create_secret parent secret_id) w Hr) as (e & _ & ->). done.
Qed.

(** With no other request at work, [create_or_update_secret] appends one
    version to one secret and touches nothing else. *)
Lemma create_or_update_secret_alone `{PyLib} (self : SecretManagerClient)
    (secret_id payload : string) (w w' : world) :
  no_race w = true ->
  create_or_update_secret self secret_id payload w = (Ok tt, w') ->
  exists data,
    encode_utf8 payload = Some data
    /\ names_a_secret (fmt (project_id self)) secret_id = true
    /\ secrets w'
       = <[(fmt (project_id self), secret_id)
            := default [] (secrets w !! (fmt (project_id self), secret_id)) ++ [data]]>
           (secrets w)
    /\ no_race w' = true
    /\ filter (fun c => is_add_version c = true) (trace w')
       = filter (fun c => is_add_version c = true) (trace w)
         ++ [AddSecretVersion ("projects/" +:+ fmt (project_id self) +:+ "/secrets/"
                               +:+ secret_id) data].
Proof.
  intros Hw. rewrite create_or_update_secret_eq. unfold bind at 1, attempt.
  pose proof (get_secret_step ("projects/" +:+ fmt (project_id self) +:+ "/secrets/"
                               +:+ secret_id) w) as Hstep.
  destruct (get_secret _ w) as [found w1] eqn:Hget. simpl in Hstep. subst w1.
  rewrite (answering_no_race w Hw) in Hget |- *.
  destruct found as [[]|e]; unfold bind at 1; simpl.
  - apply get_secret_found in Hget as (k & versions & Hk & Hv).
    rewrite secret_of_resolves in Hk.
    destruct (names_a_secret _ _) eqn:Hn; [| done]. injection Hk as <-.
    rewrite (answering_no_race w Hw) in Hv.
    unfold bind, or_raise. destruct (encode_utf8 payload) as [data|]; [| done]. simpl.
    intros (k & versions' & Hk & _ & Hv' & ->)%add_secret_version_ok.
    rewrite secret_of_resolves, Hn in Hk. injection Hk as <-.
    rewrite answering_after in Hv' |- * by done.
    rewrite Hv in Hv' |- *. injection Hv' as <-.
    exists data. split; [done |]. split; [done |]. split; [done |].
    split; [by do 2 apply no_race_after |].
    simpl. rewrite !filter_app. simpl. by rewrite app_nil_r.
  - destruct (create_secret _ secret_id _) as [[[]|e'] w2] eqn:Hcreate; simpl; [| done].
    apply create_secret_ok in Hcreate as (p & Hp & Hvalid & Hnone & ->).
    rewrite answering_after in Hnone |- * by done.
    unfold bind, or_raise. destruct (encode_utf8 payload) as [data|]; [| done]. simpl.
    intros (k & versions' & Hk & _ & Hv' & ->)%add_secret_version_ok.
    rewrite secret_of_resolves in Hk.
    destruct (names_a_secret _ _) eqn:Hn; [| done]. injection Hk as <-.
    apply names_a_secret_true in Hn as [Hproj Hid].
    rewrite project_of_resolves, bool_decide_eq_true_2 in Hp by done. injection Hp as <-.
    rewrite answering_after in Hv' |- * by by apply no_race_after.
    rewrite lookup_insert_eq in Hv'. injection Hv' as <-.
    exists data. split; [done |]. split; [done |].
    split; [simpl; by rewrite Hnone, insert_insert_eq |].
    split; [by do 3 apply no_race_after |].
    simpl. rewrite !filter_app. simpl. by rewrite !app_nil_r.
Qed.

Lemma for_each_last_piece (l : list (string * string)) (w : world) :
  Forall (fun k => str_split slash k.2 = [k.2]) l ->
  for_each (fun n => lift (last_item (str_split slash n))) (secret_name <$> l) w
  = (Ok (l.*2), w).
Proof.
  induction 1 as [|k l Hk _ IH]; [done |].
  rewrite !fmap_cons. cbn [for_each].
  unfold bind at 1, lift at 1. rewrite last_piece_of_name by done.
  unfold bind at 1. by rewrite IH.
Qed.

Lemma occurrences_absent (x : string) (l : list string) :
  x ∉ l -> occurrences x l = 0%nat.
Proof.
  unfold occurrences. induction l as [|y l IH]; [done |].
  intros [Hne Hx]%not_elem_of_cons. rewrite filter_cons.
  rewrite decide_False by done. by apply IH.
Qed.

Lemma occurrences_once (x : string) (l : list string) :
  NoDup l -> x ∈ l -> occurrences x l = 1%nat.
Proof.
  induction 1 as [|y l Hy Hl IH]; [by intros ?%elem_of_nil |].
  unfold occurrences in *. rewrite filter_cons. intros [->|Hx]%elem_of_cons.
  - rewrite decide_True by done. simpl. f_equal. by apply occurrences_absent.
  - rewrite decide_False by (intros ->; done). by apply IH.
Qed.

(** What [list_spotify_secrets] returns when the store answers: each id of
    the project that starts with the prefix, once. *)
Lemma list_spotify_secrets_names `{PyLib} (self : SecretManagerClient)
    (prefix : string) (w : world) :
  reachable w = true ->
  well_named (answering w) ->
  str_split slash (fmt (project_id self)) = [fmt (project_id self)] ->
  exists names,
    list_spotify_secrets self prefix w
    = (Ok names, after (ListSecrets ("projects/" +:+ fmt (project_id self))) (answering w) w)
    /\ NoDup names
    /\ forall n, n ∈ names
                 <-> String.prefix prefix n = true
                     /\ is_Some (answering w !! (fmt (project_id self), n)).
Proof.
  intros Hr Hnamed Hproj.
  unfold list_spotify_secrets, bind at 1, list_secrets.
  rewrite rpc_reachable by done. unfold serve_list_secrets.
  rewrite project_of_resolves, bool_decide_eq_true_2 by done. simpl.
  set (ks := filter (fun k : string * string => bool_decide (k.1 = fmt (project_id self)))
               (map_to_list (answering w)).*1).
  assert (forall k, k ∈ ks <-> k.1 = fmt (project_id self) /\ is_Some (answering w !! k))
    as Hks.
  { intros k. unfold ks. rewrite list_elem_of_filter, bool_decide_spec.
    rewrite list_elem_of_fmap. split.
    - intros [Hk ([k' v] & -> & Hin)]. split; [done |].
      apply elem_of_map_to_list in Hin. by exists v.
    - intros [Hk [v Hv]]. split; [done |]. exists (k, v). split; [done |].
      by apply elem_of_map_to_list. }
  assert (NoDup ks) as Hnodup.
  { unfold ks. apply NoDup_filter, NoDup_fst_map_to_list. }
  unfold bind at 1. rewrite for_each_last_piece.
  2:{ apply Forall_forall. intros k [_ [v Hv]]%Hks. exact (Hnamed k v Hv). }
  eexists. split; [reflexivity |]. split.
  - apply NoDup_filter, NoDup_fmap_2_strong; [| done].
    intros [p1 s1] [p2 s2] [Hp1 _]%Hks [Hp2 _]%Hks Hs. simpl in *. congruence.
  - intros n. rewrite list_elem_of_filter, list_elem_of_fmap. split.
    + intros [Hpre ([p s] & -> & [Hp Hs]%Hks)]. simpl in *. by subst.
    + intros [Hpre Hs]. split; [done |].
      exists (fmt (project_id self), n). split; [done |]. by apply Hks.
Qed.

Lemma no_race_fates (w w' : world) : fates w' = fates w -> no_race w' = no_race w.
Proof. unfold no_race. by intros ->. Qed.

(** C3. Two callbacks that both end on the success page for the same user id,
    with no other request writing in between, leave the store as it was but
    for one secret, the one named by the prefix followed by the id, which has
    gained two versions; the two add-version calls made name that secret; and
    [list_spotify_secrets], when the store answers it, reports that name
    exactly once. *)
Theorem callback_twice_one_secret `{PyLib} (cfg : settings) (sm : SecretManagerClient)
    (net1 net2 : internet) (code1 code2 state1 state2 : option string)
    (w w1 w2 : world) (display_name1 display_name2 spotify_user_id : json) :
  no_race w = true ->
  well_named (secrets w) ->
  callback cfg sm net1 code1 state1 w
    = (Ok (TemplateResponse "success.html"
             [("display_name", display_name1); ("spotify_user_id", spotify_user_id)]), w1) ->
  callback cfg sm net2 code2 state2 w1
    = (Ok (TemplateResponse "success.html"
             [("display_name", display_name2); ("spotify_user_id", spotify_user_id)]), w2) ->
  reachable w2 = true ->
  exists first second names,
    secrets w2
    = <[(fmt (project_id sm), SPOTIFY_SECRET_PREFIX cfg +:+ fmt_json spotify_user_id)
         := default [] (secrets w !! (fmt (project_id sm),
                                      SPOTIFY_SECRET_PREFIX cfg +:+ fmt_json spotify_user_id))
            ++ [first; second]]> (secrets w)
    /\ filter (fun c => is_add_version c = true) (trace w2)
       = filter (fun c => is_add_version c = true) (trace w)
         ++ [ AddSecretVersion
                ("projects/" +:+ fmt (project_id sm) +:+ "/secrets/"
                 +:+ SPOTIFY_SECRET_PREFIX cfg +:+ fmt_json spotify_user_id) first;
              AddSecretVersion
                ("projects/" +:+ fmt (project_id sm) +:+ "/secrets/"
                 +:+ SPOTIFY_SECRET_PREFIX cfg +:+ fmt_json spotify_user_id) second ]
    /\ (list_spotify_secrets sm (SPOTIFY_SECRET_PREFIX cfg) w2).1 = Ok names
    /\ occurrences (SPOTIFY_SECRET_PREFIX cfg +:+ fmt_json spotify_user_id) names = 1%nat.
Proof.
  intros Hw Hnamed Hfirst Hsecond Hlist.
  apply callback_success in Hfirst
    as (uid1 & dn1 & payload1 & v1 & [= <- <-] & Hs1 & Hf1 & Ht1 & Hstore1).
  apply create_or_update_secret_alone in Hstore1
    as (first & _ & Hname & Hsecrets1 & Hw1 & Htrace1);
    [| by rewrite (no_race_fates w v1)].
  apply callback_success in Hsecond
    as (uid2 & dn2 & payload2 & v2 & [= <- <-] & Hs2 & Hf2 & Ht2 & Hstore2).
  apply create_or_update_secret_alone in Hstore2
    as (second & _ & _ & Hsecrets2 & Hw2 & Htrace2);
    [| by rewrite (no_race_fates w1 v2)].
  apply names_a_secret_true in Hname as [Hproj Hid].
  assert (secrets w2
          = <[(fmt (project_id sm), SPOTIFY_SECRET_PREFIX cfg +:+ fmt_json spotify_user_id)
               := default [] (secrets w !! (fmt (project_id sm),
                                SPOTIFY_SECRET_PREFIX cfg +:+ fmt_json spotify_user_id))
                  ++ [first; second]]> (secrets w)) as Hsecrets.
  { rewrite Hsecrets2, Hs2, Hsecrets1, Hs1.
    rewrite lookup_insert_eq, insert_insert_eq. simpl. by rewrite <- app_assoc. }
  destruct (list_spotify_secrets_names sm (SPOTIFY_SECRET_PREFIX cfg) w2)
    as (names & Hnames & Hnodup & Hin); [done | | done |].
  { rewrite answering_no_race, Hsecrets by done.
    apply map_Forall_insert_2; [exact Hid | exact Hnamed]. }
  exists first, second, names. split; [exact Hsecrets |]. split; [| split].
  - rewrite Htrace2, Ht2, Htrace1, Ht1. by rewrite <- app_assoc.
  - by rewrite Hnames.
  - apply occurrences_once; [done |]. apply Hin. split; [apply prefix_append |].
    rewrite answering_no_race, Hsecrets, lookup_insert_eq by done. eauto.
Qed.

(** C3 at two onboardings of [u789] on an empty store. *)
Lemma callback_twice_one_secret_witness :
  let net := Scenario.provider (Scenario.answer 200 Scenario.tokens)
                               (Scenario.answer 200 Scenario.profile) in
  let w1 := (callback (H := Plain.lib) Scenario.cfg Scenario.sm net
               (Some "abc123") None Scenario.quiet).2 in
  let w2 := (callback (H := Plain.lib) Scenario.cfg Scenario.sm net
               (Some "def456") None w1).2 in
  exists first second names,
    secrets w2 = {[ ("proj", "spotify1-refresh-u789") := [first; second] ]}
    /\ (list_spotify_secrets Scenario.sm "spotify1-refresh-" w2).1 = Ok names
    /\ occurrences "spotify1-refresh-u789" names = 1%nat.
Proof.
  cbv zeta.
  destruct (callback_twice_one_secret (H := Plain.lib) Scenario.cfg Scenario.sm
              (Scenario.provider (Scenario.answer 200 Scenario.tokens)
                                 (Scenario.answer 200 Scenario.profile))
              (Scenario.provider (Scenario.answer 200 Scenario.tokens)
                                 (Scenario.answer 200 Scenario.profile))
              (Some "abc123") (Some "def456") None None Scenario.quiet
              (callback (H := Plain.lib) Scenario.cfg Scenario.sm
                 (Scenario.provider (Scenario.answer 200 Scenario.tokens)
                                    (Scenario.answer 200 Scenario.profile))
                 (Some "abc123") None Scenario.quiet).2
              (callback (H := Plain.lib) Scenario.cfg Scenario.sm
                 (Scenario.provider (Scenario.answer 200 Scenario.tokens)
                                    (Scenario.answer 200 Scenario.profile))
                 (Some "def456") None
                 (callback (H := Plain.lib) Scenario.cfg Scenario.sm
                    (Scenario.provider (Scenario.answer 200 Scenario.tokens)
                                       (Scenario.answer 200 Scenario.profile))
                    (Some "abc123") None Scenario.quiet).2).2
              (JStr "Jane") (JStr "Jane") (JStr "u789"))
    as (first & second & names & Hsecrets & _ & Hnames & Hcount);
    [reflexivity | apply map_Forall_empty | vm_compute; reflexivity
     | vm_compute; reflexivity | reflexivity |].
  exists first, second, names. split; [exact Hsecrets | split; [exact Hnames | exact Hcount]].
Defined.

(* ===================================================================== *)
(** ** The admin endpoints                                                *)
(* ===================================================================== *)

(** With an admin key configured, a request whose [x-api-key] header is
    absent or differs from it is refused by both endpoints, whatever the
    store holds, and the world is left as it was. *)
Lemma admin_gate_closed `{PyLib} (cfg : settings) (sm : SecretManagerClient)
    (key spotify_user_id : string) (x_api_key : option string) (w : world) :
  ADMIN_API_KEY cfg = Some key ->
  x_api_key <> Some key ->
  admin_users cfg sm x_api_key w = (Raise (HTTPException 401 "Unauthorized"), w)
  /\ get_token cfg sm spotify_user_id x_api_key w
     = (Raise (HTTPException 401 "Unauthorized"), w).
Proof.
  intros Hkey Hne. unfold admin_users, get_token. rewrite Hkey.
  assert (str_ne x_api_key (Some key) = true) as ->; [| done].
  destruct x_api_key as [x|]; simpl; [| done].
  destruct (String.eqb_spec x key) as [->|]; done.
Qed.

(** C4, the code at the failing input. A process started without
    [ADMIN_API_KEY] serves a request that carries no [x-api-key] header: the
    header and the key are both [None], [x_api_key != ADMIN_API_KEY] is
    false, and both endpoints go on to read the store. [get_token] answers
    200 with the stored record, refresh token included; [admin_users] answers
    200 with the list of users. *)
Lemma admin_gate_open_without_key :
  startup Scenario.environ_no_admin_key (Ok tt)
    = Ok (Scenario.keyless_cfg, Scenario.keyless_sm)
  /\ ADMIN_API_KEY Scenario.keyless_cfg = None
  /\ (get_token (H := Plain.lib) Scenario.keyless_cfg Scenario.keyless_sm "u789" None
        Scenario.onboarded).1
     = Ok (JSONResponse
             (JObj [ ("spotify_user_id", JStr "u789"); ("display_name", JStr "Jane");
                     ("refresh_token", JStr "RT1"); ("scope", JStr "user-read-email");
                     ("created_at", JStr "2024-05-01T12:00:00") ]))
  /\ filter (fun c => is_storage_call c = true)
       (trace (get_token (H := Plain.lib) Scenario.keyless_cfg Scenario.keyless_sm "u789" None
                 Scenario.onboarded).2)
     = filter (fun c => is_storage_call c = true) (trace Scenario.onboarded)
       ++ [AccessSecretVersion
             "projects/proj/secrets/spotify1-refresh-u789/versions/latest"]
  /\ (admin_users (H := Plain.lib) Scenario.keyless_cfg Scenario.keyless_sm None
        Scenario.onboarded).1
     = Ok (JSONResponse
             (JArr [JObj [("spotify_user_id", JStr "u789"); ("display_name", JStr "Jane")]]))
  /\ http_status (admin_users (H := Plain.lib) Scenario.keyless_cfg Scenario.keyless_sm None
                    Scenario.onboarded).1 = 200.
Proof. vm_compute. done. Qed.

(** [get_secret_payload] on a secret that was never created, and on the one
    the onboarding wrote. *)
Lemma get_secret_payload_examples :
  (get_secret_payload (H := Plain.lib) Scenario.keyless_sm "spotify1-refresh-nobody"
     Scenario.onboarded).1 = Ok JNull
  /\ (get_secret_payload (H := Plain.lib) Scenario.keyless_sm "spotify1-refresh-u789"
        Scenario.onboarded).1
     = Ok (JObj [ ("spotify_user_id", JStr "u789"); ("display_name", JStr "Jane");
                  ("refresh_token", JStr "RT1"); ("scope", JStr "user-read-email");
                  ("created_at", JStr "2024-05-01T12:00:00") ]).
Proof. vm_compute. done. Qed.

(* ===================================================================== *)
(** ** More about the callback                                            *)
(* ===================================================================== *)

(** Every run of [callback]: either it ends before the store is called, on
    the refusal of a missing code, on one of six error pages or on a body
    that is not a JSON object; or it runs [create_or_update_secret] once,
    after the two HTTP calls, and renders what became of it. *)
Lemma callback_run `{PyLib} (cfg : settings) (sm : SecretManagerClient)
    (net : internet) (code state : option string) (w w' : world) (r : result reply) :
  callback cfg sm net code state w = (r, w') ->
  (secrets w' = secrets w /\ fates w' = fates w
   /\ filter (fun c => is_storage_call c = true) (trace w')
      = filter (fun c => is_storage_call c = true) (trace w)
   /\ (truthy_str code = false /\ r = Raise (HTTPException 400 "Missing code parameter")
       \/ truthy_str code = true
          /\ (r = Raise JSONDecodeError \/ r = Raise AttributeError
              \/ exists message,
                   message ∈ [ "Spotify token exchange failed."; "Failed to exchange code.";
                               "Missing tokens."; "Failed to fetch Spotify profile.";
                               "Spotify profile error."; "Profile missing ID." ]
                   /\ r = Ok (error_page message))))
  \/ (exists spotify_user_id display_name refresh_token scope w1 stored,
        truthy_str code = true
        /\ secrets w1 = secrets w /\ fates w1 = fates w
        /\ truthy spotify_user_id = true /\ truthy refresh_token = true
        /\ create_or_update_secret sm
             (SPOTIFY_SECRET_PREFIX cfg +:+ fmt_json spotify_user_id)
             (json_dumps (JObj [ ("spotify_user_id", spotify_user_id);
                                 ("display_name", display_name);
                                 ("refresh_token", refresh_token);
                                 ("scope", scope);
                                 ("created_at", JStr (utcnow net)) ])) w1
           = (stored, w')
        /\ r = match stored with
               | Ok _ => Ok (TemplateResponse "success.html"
                               [ ("display_name", display_name);
                                 ("spotify_user_id", spotify_user_id) ])
               | Raise _ => Ok (error_page "Failed to store credentials.")
               end).
Proof.
  assert (forall (tr : list call) url data auth,
            filter (fun c => is_storage_call c = true) (tr ++ [HttpPost url data auth])
            = filter (fun c => is_storage_call c = true) tr) as Hlog.
  { intros. rewrite filter_app, filter_cons, decide_False by done.
    by rewrite filter_nil, app_nil_r. }
  assert (forall (tr : list call) url headers,
            filter (fun c => is_storage_call c = true) (tr ++ [HttpGet url headers])
            = filter (fun c => is_storage_call c = true) tr) as Hlog'.
  { intros. rewrite filter_app, filter_cons, decide_False by done.
    by rewrite filter_nil, app_nil_r. }
  unfold callback.
  destruct (truthy_str code) eqn:Hcode; simpl;
    [| intros [= <- <-]; left; repeat split; tauto].
  unfold bind at 1, attempt at 1, client_post, bind at 1, log, lift at 1. simpl.
  destruct (post net _ _ _) as [token_res|e]; simpl.
  2:{ intros [= <- <-]. left. simpl. rewrite Hlog. repeat split.
      right. split; [done |]. do 2 right. eexists. split; [| reflexivity].
      apply list_elem_of_In. simpl. tauto. }
  destruct (Z.eqb (status_code token_res) 200); simpl.
  2:{ intros [= <- <-]. left. simpl. rewrite Hlog. repeat split.
      right. split; [done |]. do 2 right. eexists. split; [| reflexivity].
      apply list_elem_of_In. simpl. tauto. }
  unfold bind at 1, response_json, or_raise.
  destruct (body_json token_res) as [token_json|]; simpl.
  2:{ intros [= <- <-]. left. simpl. rewrite Hlog. repeat split. tauto. }
  unfold bind at 1, lift at 1.
  destruct (get token_json "access_token") as [access_token|ea] eqn:Ha; simpl.
  2:{ intros [= <- <-]. left. simpl. rewrite Hlog. repeat split.
      destruct token_json; simpl in Ha; try discriminate; injection Ha as <-; tauto. }
  unfold bind at 1, lift at 1.
  destruct (get token_json "refresh_token") as [refresh_token|er] eqn:Hr; simpl.
  2:{ destruct token_json; simpl in Ha, Hr; congruence. }
  unfold bind at 1, lift at 1.
  destruct (get token_json "scope") as [scope|es] eqn:Hs; simpl.
  2:{ destruct token_json; simpl in Ha, Hs; congruence. }
  destruct (negb (truthy access_token) || negb (truthy refresh_token)) eqn:Htokens; simpl.
  { intros [= <- <-]. left. simpl. rewrite Hlog. repeat split.
    right. split; [done |]. do 2 right. eexists. split; [| reflexivity].
    apply list_elem_of_In. simpl. tauto. }
  unfold bind at 1, attempt at 1, client_get, bind at 1, log, lift at 1. simpl.
  destruct (http_get net _ _) as [me_res|e]; simpl.
  2:{ intros [= <- <-]. left. simpl. rewrite Hlog', Hlog. repeat split.
      right. split; [done |]. do 2 right. eexists. split; [| reflexivity].
      apply list_elem_of_In. simpl. tauto. }
  destruct (Z.eqb (status_code me_res) 200); simpl.
  2:{ intros [= <- <-]. left. simpl. rewrite Hlog', Hlog. repeat split.
      right. split; [done |]. do 2 right. eexists. split; [| reflexivity].
      apply list_elem_of_In. simpl. tauto. }
  unfold bind at 1.
  destruct (body_json me_res) as [me|]; simpl.
  2:{ intros [= <- <-]. left. simpl. rewrite Hlog', Hlog. repeat split. tauto. }
  unfold bind at 1, lift at 1.
  destruct (get me "id") as [spotify_user_id|ei] eqn:Hi; simpl.
  2:{ intros [= <- <-]. left. simpl. rewrite Hlog', Hlog. repeat split.
      destruct me; simpl in Hi; try discriminate; injection Hi as <-; tauto. }
  unfold bind at 1, lift at 1.
  destruct (get_default me "display_name" (JStr "")) as [display_name|ed] eqn:Hd; simpl.
  2:{ destruct me; simpl in Hi, Hd; congruence. }
  destruct (truthy spotify_user_id) eqn:Hid; simpl.
  2:{ intros [= <- <-]. left. simpl. rewrite Hlog', Hlog. repeat split.
      right. split; [done |]. do 2 right. eexists. split; [| reflexivity].
      apply list_elem_of_In. simpl. tauto. }
  unfold bind at 1, attempt at 1.
  destruct (create_or_update_secret sm _ _ _) as [stored w2] eqn:Hstore.
  intros Hout. right.
  apply orb_false_iff in Htokens as [_ Hrt]. apply negb_false_iff in Hrt.
  eexists spotify_user_id, display_name, refresh_token, scope, _, stored.
  split; [done |]. split; [| split; [| split; [exact Hid | split; [exact Hrt | split]]]].
  3:{ destruct stored as [[]|]; simpl in Hout; injection Hout as <- <-; exact Hstore. }
  1,2: reflexivity.
  destruct stored as [[]|]; simpl in Hout; by injection Hout as <- <-.
Qed.

(** X1. Whatever the provider and the store do, [callback] ends in one of
    these ways: the refusal of a missing or empty code, which is the only
    answer with status 400; an exception raised by a body that is not a JSON
    object; one of seven error pages; or the success page. No exception of
    the provider or of the store leaves the handler. *)
Theorem callback_outcomes `{PyLib} (cfg : settings) (sm : SecretManagerClient)
    (net : internet) (code state : option string) (w : world) :
  (truthy_str code = false
   /\ (callback cfg sm net code state w).1
      = Raise (HTTPException 400 "Missing code parameter"))
  \/ (truthy_str code = true
      /\ http_status (callback cfg sm net code state w).1 <> 400
      /\ ((callback cfg sm net code state w).1 = Raise JSONDecodeError
          \/ (callback cfg sm net code state w).1 = Raise AttributeError
          \/ (exists message,
                message ∈ [ "Spotify token exchange failed."; "Failed to exchange code.";
                            "Missing tokens."; "Failed to fetch Spotify profile.";
                            "Spotify profile error."; "Profile missing ID.";
                            "Failed to store credentials." ]
                /\ (callback cfg sm net code state w).1 = Ok (error_page message))
          \/ exists display_name spotify_user_id,
               (callback cfg sm net code state w).1
               = Ok (TemplateResponse "success.html"
                       [ ("display_name", display_name);
                         ("spotify_user_id", spotify_user_id) ]))).
Proof.
  destruct (callback cfg sm net code state w) as [r w'] eqn:Hrun. simpl.
  apply callback_run in Hrun
    as [(_ & _ & _ & [[Hcode ->] | [Hcode Hr]])
       | (uid & dn & rt & sc & w1 & stored & Hcode & _ & _ & _ & _ & _ & ->)].
  - by left.
  - right. split; [done |].
    destruct Hr as [-> | [-> | (message & Hm & ->)]]; (split; [done |]).
    + by left.
    + right. by left.
    + do 2 right. left. exists message. split; [| done].
      apply list_elem_of_In. apply list_elem_of_In in Hm. simpl in *. tauto.
  - right. split; [done |]. destruct stored as [[]|e]; (split; [done |]).
    + do 3 right. by exists dn, uid.
    + do 2 right. left. eexists. split; [| reflexivity].
      apply list_elem_of_In. simpl. tauto.
Qed.

(** X2. [callback] writes to the store on one path only. Unless it ends on
    the success page or on the page of a failed storage, the secrets and the
    fates of the calls to come are as they were and the trace holds no new
    call to the store. *)
Theorem callback_store_untouched `{PyLib} (cfg : settings) (sm : SecretManagerClient)
    (net : internet) (code state : option string) (w : world) :
  (secrets (callback cfg sm net code state w).2 = secrets w
   /\ fates (callback cfg sm net code state w).2 = fates w
   /\ filter (fun c => is_storage_call c = true)
        (trace (callback cfg sm net code state w).2)
      = filter (fun c => is_storage_call c = true) (trace w))
  \/ (callback cfg sm net code state w).1 = Ok (error_page "Failed to store credentials.")
  \/ exists display_name spotify_user_id,
       (callback cfg sm net code state w).1
       = Ok (TemplateResponse "success.html"
               [("display_name", display_name); ("spotify_user_id", spotify_user_id)]).
Proof.
  destruct (callback cfg sm net code state w) as [r w'] eqn:Hrun. simpl.
  apply callback_run in Hrun
    as [(Hs & Hf & Ht & _)
       | (uid & dn & rt & sc & w1 & stored & _ & _ & _ & _ & _ & _ & ->)].
  - by left.
  - right. destruct stored as [[]|e]; [right; by exists dn, uid | by left].
Qed.

(** X3. A token exchange that fails is terminal for the request: when the
    POST raises, the page is that of a failed exchange, and when it is
    answered with a status other than 200, that of a refused code. In both
    cases the POST is the only outbound call made. *)
Theorem callback_exchange_failure `{PyLib} (cfg : settings) (sm : SecretManagerClient)
    (net : internet) (code state : option string) (w : world) :
  truthy_str code = true ->
  match post net SPOTIFY_TOKEN_URL
          [ ("grant_type", Some "authorization_code"); ("code", code);
            ("redirect_uri", REDIRECT_URI cfg) ]
          (SPOTIFY_CLIENT_ID cfg, SPOTIFY_CLIENT_SECRET cfg) with
  | Raise _ => True
  | Ok token_res => status_code token_res <> 200
  end ->
  callback cfg sm net code state w
  = (Ok (error_page
           match post net SPOTIFY_TOKEN_URL
                   [ ("grant_type", Some "authorization_code"); ("code", code);
                     ("redirect_uri", REDIRECT_URI cfg) ]
                   (SPOTIFY_CLIENT_ID cfg, SPOTIFY_CLIENT_SECRET cfg) with
           | Raise _ => "Spotify token exchange failed."
           | Ok _ => "Failed to exchange code."
           end),
     logged (HttpPost SPOTIFY_TOKEN_URL
               [ ("grant_type", Some "authorization_code"); ("code", code);
                 ("redirect_uri", REDIRECT_URI cfg) ]
               (SPOTIFY_CLIENT_ID cfg, SPOTIFY_CLIENT_SECRET cfg)) w).
Proof.
  intros Hcode Hfail. unfold callback. rewrite Hcode. simpl.
  unfold bind, attempt, client_post, bind, log, lift. simpl.
  destruct (post net _ _ _) as [token_res|e]; simpl; [| done].
  apply Z.eqb_neq in Hfail. by rewrite Hfail.
Qed.

(** X3 at a provider whose token endpoint cannot be reached. *)
Lemma callback_exchange_failure_witness :
  (callback (H := Plain.lib) Scenario.cfg Scenario.sm
     (Scenario.provider (Raise TransportError) (Scenario.answer 200 Scenario.profile))
     (Some "abc123") None Scenario.quiet).1
  = Ok (error_page "Spotify token exchange failed.").
Proof.
  rewrite (callback_exchange_failure (H := Plain.lib) Scenario.cfg Scenario.sm
             (Scenario.provider (Raise TransportError) (Scenario.answer 200 Scenario.profile))
             (Some "abc123") None Scenario.quiet); [reflexivity | reflexivity | exact I].
Defined.

(** X4. Once the exchange has succeeded, a profile fetch that fails is
    terminal: when the GET raises, the page is that of a failed fetch, and
    when it is answered with a status other than 200, that of a profile
    error. The store is not called. *)
Theorem callback_profile_failure `{PyLib} (cfg : settings) (sm : SecretManagerClient)
    (net : internet) (code state : option string) (w : world)
    (token_res : response) (token_json : list (string * json))
    (access_token refresh_token : json) :
  truthy_str code = true ->
  post net SPOTIFY_TOKEN_URL
    [ ("grant_type", Some "authorization_code"); ("code", code);
      ("redirect_uri", REDIRECT_URI cfg) ]
    (SPOTIFY_CLIENT_ID cfg, SPOTIFY_CLIENT_SECRET cfg) = Ok token_res ->
  status_code token_res = 200 ->
  body_json token_res = Some (JObj token_json) ->
  dict_lookup "access_token" token_json = Some access_token ->
  truthy access_token = true ->
  dict_lookup "refresh_token" token_json = Some refresh_token ->
  truthy refresh_token = true ->
  match http_get net SPOTIFY_ME_URL
          [("Authorization", "Bearer " +:+ fmt_json access_token)] with
  | Raise _ => True
  | Ok me_res => status_code me_res <> 200
  end ->
  callback cfg sm net code state w
  = (Ok (error_page
           match http_get net SPOTIFY_ME_URL
                   [("Authorization", "Bearer " +:+ fmt_json access_token)] with
           | Raise _ => "Failed to fetch Spotify profile."
           | Ok _ => "Spotify profile error."
           end),
     logged (HttpGet SPOTIFY_ME_URL [("Authorization", "Bearer " +:+ fmt_json access_token)])
       (logged (HttpPost SPOTIFY_TOKEN_URL
                  [ ("grant_type", Some "authorization_code"); ("code", code);
                    ("redirect_uri", REDIRECT_URI cfg) ]
                  (SPOTIFY_CLIENT_ID cfg, SPOTIFY_CLIENT_SECRET cfg)) w)).
Proof.
  intros Hcode Hpost Hstatus Hbody Hat Hat' Hrt Hrt' Hfail.
  unfold callback. rewrite Hcode. simpl.
  unfold bind, attempt, client_post, client_get, bind, log, lift. simpl.
  rewrite Hpost, Hstatus. simpl. unfold response_json. rewrite Hbody. simpl.
  rewrite Hat, Hrt. simpl. rewrite Hat', Hrt'. simpl.
  destruct (http_get net _ _) as [me_res|e]; simpl; [| done].
  apply Z.eqb_neq in Hfail. by rewrite Hfail.
Qed.

(** X4 at a provider whose profile endpoint answers 401. *)
Lemma callback_profile_failure_witness :
  (callback (H := Plain.lib) Scenario.cfg Scenario.sm
     (Scenario.provider (Scenario.answer 200 Scenario.tokens)
                        (Scenario.answer 401 (JObj [])))
     (Some "abc123") None Scenario.quiet).1
  = Ok (error_page "Spotify profile error.").
Proof.
  rewrite (callback_profile_failure (H := Plain.lib) Scenario.cfg Scenario.sm
             (Scenario.provider (Scenario.answer 200 Scenario.tokens)
                                (Scenario.answer 401 (JObj [])))
             (Some "abc123") None Scenario.quiet
             {| status_code := 200; body_json := Some Scenario.tokens |}
             [ ("access_token", JStr "AT1"); ("refresh_token", JStr "RT1");
               ("scope", JStr "user-read-email") ]
             (JStr "AT1") (JStr "RT1")); [reflexivity .. | done].
Defined.

(** X5. When both provider calls have succeeded and
    [create_or_update_secret] raises, whatever it raises, the callback
    renders the page of a failed storage, with status 200, and leaves the
    world as the adapter left it: the onboarding never reports success over
    a failed write, and the exception does not leave the handler. *)
Theorem callback_storage_failure `{PyLib} (cfg : settings) (sm : SecretManagerClient)
    (net : internet) (code state : option string) (w w' : world) (e : exn)
    (token_res me_res : response) (token_json me : list (string * json))
    (access_token refresh_token spotify_user_id : json) :
  truthy_str code = true ->
  post net SPOTIFY_TOKEN_URL
    [ ("grant_type", Some "authorization_code"); ("code", code);
      ("redirect_uri", REDIRECT_URI cfg) ]
    (SPOTIFY_CLIENT_ID cfg, SPOTIFY_CLIENT_SECRET cfg) = Ok token_res ->
  status_code token_res = 200 ->
  body_json token_res = Some (JObj token_json) ->
  dict_lookup "access_token" token_json = Some access_token ->
  truthy access_token = true ->
  dict_lookup "refresh_token" token_json = Some refresh_token ->
  truthy refresh_token = true ->
  http_get net SPOTIFY_ME_URL [("Authorization", "Bearer " +:+ fmt_json access_token)]
    = Ok me_res ->
  status_code me_res = 200 ->
  body_json me_res = Some (JObj me) ->
  dict_lookup "id" me = Some spotify_user_id ->
  truthy spotify_user_id = true ->
  create_or_update_secret sm (SPOTIFY_SECRET_PREFIX cfg +:+ fmt_json spotify_user_id)
    (json_dumps
       (JObj [ ("spotify_user_id", spotify_user_id);
               ("display_name", default (JStr "") (dict_lookup "display_name" me));
               ("refresh_token", refresh_token);
               ("scope", default JNull (dict_lookup "scope" token_json));
               ("created_at", JStr (utcnow net)) ]))
    (logged (HttpGet SPOTIFY_ME_URL [("Authorization", "Bearer " +:+ fmt_json access_token)])
       (logged (HttpPost SPOTIFY_TOKEN_URL
                  [ ("grant_type", Some "authorization_code"); ("code", code);
                    ("redirect_uri", REDIRECT_URI cfg) ]
                  (SPOTIFY_CLIENT_ID cfg, SPOTIFY_CLIENT_SECRET cfg)) w))
    = (Raise e, w') ->
  callback cfg sm net code state w = (Ok (error_page "Failed to store credentials."), w')
  /\ http_status (callback cfg sm net code state w).1 = 200.
Proof.
  intros Hcode Hpost Hstatus Hbody Hat Hat' Hrt Hrt' Hget Hstatus' Hbody' Hid Hid' Hstore.
  assert (callback cfg sm net code state w
          = (Ok (error_page "Failed to store credentials."), w')) as Hout.
  { unfold callback. rewrite Hcode. simpl.
    unfold bind, attempt, client_post, client_get, bind, log, lift. simpl.
    rewrite Hpost, Hstatus. simpl. unfold response_json. rewrite Hbody. simpl.
    rewrite Hat, Hrt. simpl. rewrite Hat', Hrt'. simpl.
    rewrite Hget, Hstatus'. simpl. rewrite Hbody'. simpl.
    rewrite Hid. simpl. rewrite Hid'. simpl.
    unfold logged in Hstore. simpl in Hstore. by rewrite Hstore. }
  by rewrite Hout.
Qed.

(** X5 at a store that refuses every call. *)
Lemma callback_storage_failure_witness :
  (callback (H := Plain.lib) Scenario.cfg Scenario.sm
     (Scenario.provider (Scenario.answer 200 Scenario.tokens)
                        (Scenario.answer 200 Scenario.profile))
     (Some "abc123") None Scenario.locked).1
  = Ok (error_page "Failed to store credentials.").
Proof.
  destruct (callback_storage_failure (H := Plain.lib) Scenario.cfg Scenario.sm
              (Scenario.provider (Scenario.answer 200 Scenario.tokens)
                                 (Scenario.answer 200 Scenario.profile))
              (Some "abc123") None Scenario.locked
              (callback (H := Plain.lib) Scenario.cfg Scenario.sm
                 (Scenario.provider (Scenario.answer 200 Scenario.tokens)
                                    (Scenario.answer 200 Scenario.profile))
                 (Some "abc123") None Scenario.locked).2
              (ServiceError "permission denied")
              {| status_code := 200; body_json := Some Scenario.tokens |}
              {| status_code := 200; body_json := Some Scenario.profile |}
              [ ("access_token", JStr "AT1"); ("refresh_token", JStr "RT1");
                ("scope", JStr "user-read-email") ]
              [ ("id", JStr "u789"); ("display_name", JStr "Jane") ]
              (JStr "AT1") (JStr "RT1") (JStr "u789")) as [Hout _];
    [reflexivity .. | vm_compute; reflexivity |].
  by rewrite Hout.
Defined.

(** X6. A token exchange answered 200 with a body that is not a JSON object
    is not rendered as an error page: reading it raises, out of the handler
    (status 500), a decoding error when the body is not JSON and an attribute
    error when it is JSON of another kind. Neither the profile nor the store
    is called. *)
Theorem callback_exchange_body_not_object `{PyLib} (cfg : settings)
    (sm : SecretManagerClient) (net : internet) (code state : option string) (w : world)
    (token_res : response) :
  truthy_str code = true ->
  post net SPOTIFY_TOKEN_URL
    [ ("grant_type", Some "authorization_code"); ("code", code);
      ("redirect_uri", REDIRECT_URI cfg) ]
    (SPOTIFY_CLIENT_ID cfg, SPOTIFY_CLIENT_SECRET cfg) = Ok token_res ->
  status_code token_res = 200 ->
  match body_json token_res with
  | Some (JObj _) => False
  | _ => True
  end ->
  callback cfg sm net code state w
  = (Raise match body_json token_res with
           | None => JSONDecodeError
           | Some _ => AttributeError
           end,
     logged (HttpPost SPOTIFY_TOKEN_URL
               [ ("grant_type", Some "authorization_code"); ("code", code);
                 ("redirect_uri", REDIRECT_URI cfg) ]
               (SPOTIFY_CLIENT_ID cfg, SPOTIFY_CLIENT_SECRET cfg)) w)
  /\ http_status (callback cfg sm net code state w).1 = 500.
Proof.
  intros Hcode Hpost Hstatus Hbody.
  unfold callback. rewrite Hcode. simpl.
  unfold bind, attempt, client_post, bind, log, lift. simpl.
  rewrite Hpost, Hstatus. simpl. unfold response_json.
  destruct (body_json token_res) as [[]|]; simpl; done.
Qed.

(** X6 at an exchange answered 200 with a JSON list. *)
Lemma callback_exchange_body_not_object_witness :
  (callback (H := Plain.lib) Scenario.cfg Scenario.sm
     (Scenario.provider (Scenario.answer 200 (JArr [JStr "AT1"]))
                        (Scenario.answer 200 Scenario.profile))
     (Some "abc123") None Scenario.quiet).1
  = Raise AttributeError.
Proof.
  destruct (callback_exchange_body_not_object (H := Plain.lib) Scenario.cfg Scenario.sm
              (Scenario.provider (Scenario.answer 200 (JArr [JStr "AT1"]))
                                 (Scenario.answer 200 Scenario.profile))
              (Some "abc123") None Scenario.quiet
              {| status_code := 200; body_json := Some (JArr [JStr "AT1"]) |}) as [Hout _];
    [reflexivity | reflexivity | reflexivity | exact I |].
  by rewrite Hout.
Defined.

(** X7. The same holds of the profile: answered 200 with a body that is not
    a JSON object, it makes the handler raise (status 500) after the two
    HTTP calls, and the store is not called. *)
Theorem callback_profile_body_not_object `{PyLib} (cfg : settings)
    (sm : SecretManagerClient) (net : internet) (code state : option string) (w : world)
    (token_res me_res : response) (token_json : list (string * json))
    (access_token refresh_token : json) :
  truthy_str code = true ->
  post net SPOTIFY_TOKEN_URL
    [ ("grant_type", Some "authorization_code"); ("code", code);
      ("redirect_uri", REDIRECT_URI cfg) ]
    (SPOTIFY_CLIENT_ID cfg, SPOTIFY_CLIENT_SECRET cfg) = Ok token_res ->
  status_code token_res = 200 ->
  body_json token_res = Some (JObj token_json) ->
  dict_lookup "access_token" token_json = Some access_token ->
  truthy access_token = true ->
  dict_lookup "refresh_token" token_json = Some refresh_token ->
  truthy refresh_token = true ->
  http_get net SPOTIFY_ME_URL [("Authorization", "Bearer " +:+ fmt_json access_token)]
    = Ok me_res ->
  status_code me_res = 200 ->
  match body_json me_res with
  | Some (JObj _) => False
  | _ => True
  end ->
  callback cfg sm net code state w
  = (Raise match body_json me_res with
           | None => JSONDecodeError
           | Some _ => AttributeError
           end,
     logged (HttpGet SPOTIFY_ME_URL [("Authorization", "Bearer " +:+ fmt_json access_token)])
       (logged (HttpPost SPOTIFY_TOKEN_URL
                  [ ("grant_type", Some "authorization_code"); ("code", code);
                    ("redirect_uri", REDIRECT_URI cfg) ]
                  (SPOTIFY_CLIENT_ID cfg, SPOTIFY_CLIENT_SECRET cfg)) w))
  /\ http_status (callback cfg sm net code state w).1 = 500.
Proof.
  intros Hcode Hpost Hstatus Hbody Hat Hat' Hrt Hrt' Hget Hstatus' Hbody'.
  unfold callback. rewrite Hcode. simpl.
  unfold bind, attempt, client_post, client_get, bind, log, lift. simpl.
  rewrite Hpost, Hstatus. simpl. unfold response_json. rewrite Hbody. simpl.
  rewrite Hat, Hrt. simpl. rewrite Hat', Hrt'. simpl.
  rewrite Hget, Hstatus'. simpl.
  destruct (body_json me_res) as [[]|]; simpl; done.
Qed.

(** X7 at a profile answered 200 with the JSON value [null]. *)
Lemma callback_profile_body_not_object_witness :
  (callback (H := Plain.lib) Scenario.cfg Scenario.sm
     (Scenario.provider (Scenario.answer 200 Scenario.tokens)
                        (Scenario.answer 200 JNull))
     (Some "abc123") None Scenario.quiet).1
  = Raise AttributeError.
Proof.
  destruct (callback_profile_body_not_object (H := Plain.lib) Scenario.cfg Scenario.sm
              (Scenario.provider (Scenario.answer 200 Scenario.tokens)
                                 (Scenario.answer 200 JNull))
              (Some "abc123") None Scenario.quiet
              {| status_code := 200; body_json := Some Scenario.tokens |}
              {| status_code := 200; body_json := Some JNull |}
              [ ("access_token", JStr "AT1"); ("refresh_token", JStr "RT1");
                ("scope", JStr "user-read-email") ]
              (JStr "AT1") (JStr "RT1")) as [Hout _];
    [reflexivity .. | exact I |].
  by rewrite Hout.
Defined.

(* ===================================================================== *)
(** ** More about the adapter                                             *)
(* ===================================================================== *)

Lemma calm_reachable (w : world) : calm w = true -> reachable w = true.
Proof. unfold calm, reachable. by destruct (fates w) as [|[| |] ?]. Qed.

Lemma calm_no_race (w : world) : calm w = true -> no_race w = true.
Proof.
  unfold calm, no_race. induction (fates w) as [|[| |] rest IH]; simpl; try done.
Qed.

Lemma calm_answering (w : world) : calm w = true -> answering w = secrets w.
Proof. intros Hw. by apply answering_no_race, calm_no_race. Qed.

Lemma calm_after (c : call) (σ : gmap (string * string) (list bytes)) (w : world) :
  calm w = true -> calm (after c σ w) = true.
Proof.
  unfold calm, after. simpl. destruct (fates w) as [|f rest]; simpl; [done |].
  by intros [_ ?]%andb_true_iff.
Qed.

(** What [get_secret_payload] returns and the world it leaves. *)
Lemma get_secret_payload_reads `{PyLib} (self : SecretManagerClient)
    (secret_id : string) (w : world) :
  get_secret_payload self secret_id w
  = (Ok (get_latest self secret_id w),
     after (AccessSecretVersion ("projects/" +:+ fmt (project_id self) +:+ "/secrets/"
                                  +:+ secret_id +:+ "/versions/latest"))
           (answering w) w).
Proof.
  unfold get_secret_payload, get_latest, bind, attempt, access_secret_version.
  destruct (reachable w) eqn:Hr; simpl.
  - rewrite rpc_reachable by done.
    unfold serve_access_secret_version. rewrite latest_of_resolves.
    destruct (names_a_secret _ _); simpl; [| done].
    destruct (answering w !! _) as [versions|]; simpl; [| done].
    destruct (last versions) as [data|]; simpl; [| done].
    unfold parsed, or_raise, ret, raise.
    destruct (decode_utf8 data) as [payload|]; simpl; [| done].
    by destruct (json_loads payload).
  - destruct (rpc_unreachable (AccessSecretVersion
        ("projects/" +:+ fmt (project_id self) +:+ "/secrets/" +:+ secret_id
         +:+ "/versions/latest"))
        (serve_access_secret_version
           ("projects/" +:+ fmt (project_id self) +:+ "/secrets/" +:+ secret_id
            +:+ "/versions/latest")) w Hr) as (e & _ & ->).
    simpl. by rewrite answering_unreachable.
Qed.

(** X8. On a store that answers, with a name it accepts and a payload that
    encodes, [create_or_update_secret] returns. A secret that is there gets
    the payload as one more version, after two calls and no creation; a
    secret that is not is created and gets it as its first version, after
    three calls. No other secret changes. *)
Theorem create_or_update_secret_appends `{PyLib} (self : SecretManagerClient)
    (secret_id payload : string) (data : bytes) (w : world) :
  calm w = true ->
  names_a_secret (fmt (project_id self)) secret_id = true ->
  encode_utf8 payload = Some data ->
  is_Some (secrets w !! (fmt (project_id self), secret_id))
  \/ valid_secret_id secret_id = true ->
  create_or_update_secret self secret_id payload w
  = (Ok tt,
     {| secrets :=
          <[(fmt (project_id self), secret_id)
             := default [] (secrets w !! (fmt (project_id self), secret_id)) ++ [data]]>
            (secrets w);
        fates := match secrets w !! (fmt (project_id self), secret_id) with
                 | Some _ => drop 2 (fates w)
                 | None => drop 3 (fates w)
                 end;
        trace :=
          trace w
          ++ GetSecret ("projects/" +:+ fmt (project_id self) +:+ "/secrets/" +:+ secret_id)
             :: match secrets w !! (fmt (project_id self), secret_id) with
                | Some _ => []
                | None => [CreateSecret ("projects/" +:+ fmt (project_id self)) secret_id]
                end
             ++ [AddSecretVersion ("projects/" +:+ fmt (project_id self) +:+ "/secrets/"
                                   +:+ secret_id) data] |}).
Proof.
  intros Hw Hname Hdata Hcan.
  pose proof (proj1 (names_a_secret_true _ _) Hname) as [Hproj Hid].
  rewrite create_or_update_secret_eq.
  unfold bind, attempt, get_secret, create_secret, add_secret_version, or_raise.
  rewrite rpc_reachable by by apply calm_reachable.
  rewrite (calm_answering w Hw). unfold serve_get_secret at 1 2.
  rewrite secret_of_resolves, Hname, Hdata.
  destruct (secrets w !! (fmt (project_id self), secret_id)) as [versions|] eqn:Hk; simpl.
  - rewrite rpc_reachable by by apply calm_reachable, calm_after.
    rewrite calm_answering by by apply calm_after.
    unfold serve_add_secret_version. rewrite secret_of_resolves, Hname. simpl.
    rewrite Hk. simpl. unfold after. simpl. f_equal. f_equal.
    + by destruct (fates w) as [|? [|? ?]].
    + by rewrite <- app_assoc.
  - destruct Hcan as [[? [=]] | Hvalid].
    rewrite rpc_reachable by by apply calm_reachable, calm_after.
    rewrite calm_answering by by apply calm_after.
    unfold serve_create_secret at 1 2.
    rewrite project_of_resolves, bool_decide_eq_true_2, Hvalid by done. simpl.
    rewrite Hk. simpl.
    rewrite rpc_reachable by (apply calm_reachable; by do 2 apply calm_after).
    rewrite calm_answering by by do 2 apply calm_after.
    unfold serve_add_secret_version. rewrite secret_of_resolves, Hname. simpl.
    rewrite lookup_insert_eq. simpl. unfold after. simpl.
    rewrite insert_insert_eq. f_equal. f_equal.
    + by destruct (fates w) as [|? [|? [|? ?]]].
    + by rewrite <- !app_assoc.
Qed.

(** X8 at the first write for a user, on an empty store. *)
Lemma create_or_update_secret_appends_witness :
  (create_or_update_secret (H := Plain.lib) Scenario.sm "spotify1-refresh-u789" "{}"
     Scenario.quiet).1 = Ok tt
  /\ secrets (create_or_update_secret (H := Plain.lib) Scenario.sm "spotify1-refresh-u789"
                "{}" Scenario.quiet).2
     = {[ ("proj", "spotify1-refresh-u789") := [Scenario.rival] ]}.
Proof.
  rewrite (create_or_update_secret_appends (H := Plain.lib) Scenario.sm
             "spotify1-refresh-u789" "{}" Scenario.rival Scenario.quiet);
    [| reflexivity | vm_compute; reflexivity | reflexivity | right; reflexivity].
  split; [reflexivity | vm_compute; reflexivity].
Defined.

(** X9. Writing and reading back. After [create_or_update_secret] has
    returned for a payload that the codec gives back as it took it, and while
    the store answers and no other request writes, [get_secret_payload] on
    the same secret id returns what [json.loads] makes of that payload. *)
Theorem written_payload_is_read `{PyLib} (self : SecretManagerClient)
    (secret_id payload : string) (w w' : world) :
  create_or_update_secret self secret_id payload w = (Ok tt, w') ->
  (forall data, encode_utf8 payload = Some data -> decode_utf8 data = Some payload) ->
  reachable w' = true ->
  no_race w' = true ->
  (get_secret_payload self secret_id w').1 = Ok (default JNull (json_loads payload)).
Proof.
  intros (data & versions & Hdata & Hname & Hstored & _)%create_or_update_secret_ok
         Hcodec Hreach Hquiet.
  rewrite get_secret_payload_reads. simpl. unfold get_latest.
  rewrite Hreach, Hname, answering_no_race, Hstored, last_snoc by done. simpl.
  unfold parsed. by rewrite (Hcodec data Hdata).
Qed.

(** X9 at the record of a user, written to an empty store. *)
Lemma written_payload_is_read_witness :
  let payload := Plain.dumps (JObj [("spotify_user_id", JStr "u789")]) in
  (get_secret_payload (H := Plain.lib) Scenario.sm "spotify1-refresh-u789"
     (create_or_update_secret (H := Plain.lib) Scenario.sm "spotify1-refresh-u789" payload
        Scenario.quiet).2).1
  = Ok (JObj [("spotify_user_id", JStr "u789")]).
Proof.
  cbv zeta.
  rewrite (written_payload_is_read (H := Plain.lib) Scenario.sm "spotify1-refresh-u789"
             (Plain.dumps (JObj [("spotify_user_id", JStr "u789")])) Scenario.quiet);
    [reflexivity | vm_compute; reflexivity | | reflexivity | reflexivity].
  intros data [= <-]. vm_compute. reflexivity.
Defined.

Lemma str_ne_same (x : option string) : str_ne x x = false.
Proof. destruct x as [s|]; simpl; [by rewrite String.eqb_refl | done]. Qed.

(** X10. With the key the process holds, [get_token] makes one call to the
    store and answers with the parsed latest payload of the user's secret,
    as it is, when that payload is truthy; it answers 404 otherwise: when
    the store cannot be reached, when the user has no secret or no version,
    when the payload is not JSON, and also when it is an empty object or
    another falsy JSON value. *)
Theorem get_token_authorized `{PyLib} (cfg : settings) (sm : SecretManagerClient)
    (spotify_user_id : string) (x_api_key : option string) (w : world) :
  x_api_key = ADMIN_API_KEY cfg ->
  get_token cfg sm spotify_user_id x_api_key w
  = (if truthy (get_latest sm (SPOTIFY_SECRET_PREFIX cfg +:+ spotify_user_id) w)
     then Ok (JSONResponse (get_latest sm (SPOTIFY_SECRET_PREFIX cfg +:+ spotify_user_id) w))
     else Raise (HTTPException 404 "User not found"),
     after (AccessSecretVersion
              ("projects/" +:+ fmt (project_id sm) +:+ "/secrets/"
               +:+ (SPOTIFY_SECRET_PREFIX cfg +:+ spotify_user_id) +:+ "/versions/latest"))
       (answering w) w).
Proof.
  intros ->. unfold get_token. rewrite str_ne_same. unfold bind.
  rewrite get_secret_payload_reads.
  by destruct (truthy (get_latest sm _ w)).
Qed.

(** X10 at a user who was never onboarded. *)
Lemma get_token_authorized_witness :
  (get_token (H := Plain.lib) Scenario.cfg Scenario.sm "nobody" (Some "k3y")
     Scenario.onboarded).1
  = Raise (HTTPException 404 "User not found")
  /\ (get_token (H := Plain.lib) Scenario.cfg Scenario.sm "u789" (Some "k3y")
        Scenario.onboarded).1
     = Ok (JSONResponse
             (JObj [ ("spotify_user_id", JStr "u789"); ("display_name", JStr "Jane");
                     ("refresh_token", JStr "RT1"); ("scope", JStr "user-read-email");
                     ("created_at", JStr "2024-05-01T12:00:00") ])).
Proof.
  rewrite !(get_token_authorized (H := Plain.lib) Scenario.cfg Scenario.sm _
              (Some "k3y") Scenario.onboarded) by reflexivity.
  split; vm_compute; reflexivity.
Defined.

(* ===================================================================== *)
(** ** More about the admin endpoints                                     *)
(* ===================================================================== *)

Lemma get_latest_calm `{PyLib} (self : SecretManagerClient) (secret_id : string)
    (w w' : world) :
  calm w = true -> calm w' = true -> secrets w' = secrets w ->
  get_latest self secret_id w' = get_latest self secret_id w.
Proof.
  intros Hw Hw' Hs. unfold get_latest.
  by rewrite !calm_reachable, !calm_answering, Hs by done.
Qed.

Lemma for_each_lift_world {A B : Type} (f : A -> result B) (l : list A) (w : world) :
  (for_each (fun x => lift (f x)) l w).2 = w.
Proof.
  induction l as [|x l IH]; [done |].
  cbn [for_each]. unfold bind at 1, lift at 1. destruct (f x) as [y|e]; [| done].
  unfold bind. destruct (for_each _ l w) as [[ys|e] w'] eqn:Hl; simpl in *; by subst.
Qed.

Lemma list_spotify_secrets_world (self : SecretManagerClient) (prefix : string) (w : world) :
  (list_spotify_secrets self prefix w).2
  = after (ListSecrets ("projects/" +:+ fmt (project_id self))) (answering w) w.
Proof.
  unfold list_spotify_secrets, bind at 1, list_secrets.
  destruct (reachable w) eqn:Hr.
  - rewrite rpc_reachable by done. unfold serve_list_secrets.
    destruct (project_of _) as [p|]; simpl; [| done].
    unfold bind.
    pose proof (for_each_lift_world (fun n => last_item (str_split slash n))
                  (secret_name <$> filter (fun k : string * string => bool_decide (k.1 = p))
                                     (map_to_list (answering w)).*1)
                  (after (ListSecrets ("projects/" +:+ fmt (project_id self)))
                     (answering w) w)) as Hw.
    destruct (for_each _ _ _) as [[ys|e] w']; simpl in *; by subst.
  - destruct (rpc_unreachable (ListSecrets ("projects/" +:+ fmt (project_id self)))
                (serve_list_secrets ("projects/" +:+ fmt (project_id self))) w Hr)
      as (e & _ & ->).
    simpl. by rewrite answering_unreachable.
Qed.

(** The loop of [admin_users] on a store that answers and does not change. *)
Lemma collect_users_calm `{PyLib} (sm : SecretManagerClient) (w0 : world)
    (names : list string) :
  Forall (fun n => truthy (get_latest sm n w0) = false
                   \/ exists items, get_latest sm n w0 = JObj items) names ->
  forall (users : list json) (w : world),
    calm w0 = true -> calm w = true -> secrets w = secrets w0 ->
    (collect_users sm names users w).1
    = Ok (users ++ users_of ((fun n => get_latest sm n w0) <$> names)).
Proof.
  induction 1 as [|n names Hn _ IH]; intros users w Hw0 Hw Hs.
  - simpl. by rewrite app_nil_r.
  - cbn [collect_users]. unfold bind at 1. rewrite get_secret_payload_reads.
    rewrite (get_latest_calm sm n w0 w) by done.
    rewrite fmap_cons.
    assert (calm (after (AccessSecretVersion
                           ("projects/" +:+ fmt (project_id sm) +:+ "/secrets/" +:+ n
                            +:+ "/versions/latest")) (answering w) w) = true) as Hw'
      by by apply calm_after.
    assert (secrets (after (AccessSecretVersion
                              ("projects/" +:+ fmt (project_id sm) +:+ "/secrets/" +:+ n
                               +:+ "/versions/latest")) (answering w) w) = secrets w0)
      as Hs' by (simpl; by rewrite calm_answering).
    destruct Hn as [Hfalsy | [items Hitems]].
    + rewrite Hfalsy. cbv iota. rewrite IH; [| done ..].
      destruct (get_latest sm n w0) as [| | | | | |[|item items]]; try done.
    + rewrite Hitems. destruct items as [|item items]; cbn [truthy]; cbv iota.
      * rewrite IH; done.
      * unfold bind at 1, lift at 1. simpl get. cbv iota.
        unfold bind at 1, lift at 1. cbv iota.
        rewrite IH; [| done ..]. cbn [users_of]. unfold user_entry.
        by rewrite <- app_assoc.
Qed.

(** The same loop when one of the payloads is truthy and not an object:
    [payload.get] raises, and the exception leaves the loop. *)
Lemma collect_users_raises `{PyLib} (sm : SecretManagerClient) (w0 : world)
    (names : list string) :
  Exists (fun n => truthy (get_latest sm n w0) = true
                   /\ forall items, get_latest sm n w0 <> JObj items) names ->
  forall (users : list json) (w : world),
    calm w0 = true -> calm w = true -> secrets w = secrets w0 ->
    (collect_users sm names users w).1 = Raise AttributeError.
Proof.
  induction names as [|n names IH]; intros Hbad users w Hw0 Hw Hs.
  - by apply Exists_nil in Hbad.
  - cbn [collect_users]. unfold bind at 1. rewrite get_secret_payload_reads.
    rewrite (get_latest_calm sm n w0 w) by done.
    assert (calm (after (AccessSecretVersion
                           ("projects/" +:+ fmt (project_id sm) +:+ "/secrets/" +:+ n
                            +:+ "/versions/latest")) (answering w) w) = true) as Hw'
      by by apply calm_after.
    assert (secrets (after (AccessSecretVersion
                              ("projects/" +:+ fmt (project_id sm) +:+ "/secrets/" +:+ n
                               +:+ "/versions/latest")) (answering w) w) = secrets w0)
      as Hs' by (simpl; by rewrite calm_answering).
    apply Exists_cons in Hbad.
    destruct (truthy (get_latest sm n w0)) eqn:Htruthy.
    + destruct (get_latest sm n w0) as [| | | | | |items] eqn:Hpayload; try done.
      unfold bind at 1, lift at 1. simpl get. cbv iota.
      unfold bind at 1, lift at 1. cbv iota.
      apply IH; [| done ..].
      destruct Hbad as [[_ Hnot] | Hrest]; [by destruct (Hnot items) | done].
    + apply IH; [| done ..].
      destruct Hbad as [[Hyes _] | Hrest]; [done | done].
Qed.

(** X11. With the key the process holds, on a store that answers and that
    no other request writes to, [admin_users] reads the latest payload of
    every name [list_spotify_secrets] returns. If each payload that is truthy
    is a JSON object, it lists one entry for each object that is not empty,
    in the order of the names: its [spotify_user_id] and [display_name],
    [None] for one that is missing; names whose payload is absent, not JSON,
    or falsy are skipped. If some payload is truthy and is not an object (a
    list, a string, a number, [true]), the request raises [AttributeError]
    and nothing is listed. *)
Theorem admin_users_lists `{PyLib} (cfg : settings) (sm : SecretManagerClient)
    (x_api_key : option string) (w w1 : world) (names : list string) :
  x_api_key = ADMIN_API_KEY cfg ->
  calm w = true ->
  list_spotify_secrets sm (SPOTIFY_SECRET_PREFIX cfg) w = (Ok names, w1) ->
  (Forall (fun n => truthy (get_latest sm n w) = false
                    \/ exists items, get_latest sm n w = JObj items) names ->
     (admin_users cfg sm x_api_key w).1
     = Ok (JSONResponse (JArr (users_of ((fun n => get_latest sm n w) <$> names)))))
  /\ (Exists (fun n => truthy (get_latest sm n w) = true
                       /\ forall items, get_latest sm n w <> JObj items) names ->
       (admin_users cfg sm x_api_key w).1 = Raise AttributeError
       /\ http_status (admin_users cfg sm x_api_key w).1 = 500).
Proof.
  intros -> Hw Hlist.
  assert (forall r, (collect_users sm names [] w1).1 = r ->
            (admin_users cfg sm (ADMIN_API_KEY cfg) w).1
            = match r with
              | Ok users => Ok (JSONResponse (JArr users))
              | Raise e => Raise e
              end) as Hrun.
  { intros r <-. unfold admin_users. rewrite str_ne_same.
    unfold bind. rewrite Hlist.
    by destruct (collect_users sm names [] w1) as [[users|e] w2]. }
  pose proof (list_spotify_secrets_world sm (SPOTIFY_SECRET_PREFIX cfg) w) as Hw1.
  rewrite Hlist in Hw1. simpl in Hw1.
  assert (calm w1 = true) as Hcalm1 by (subst w1; by apply calm_after).
  assert (secrets w1 = secrets w) as Hsecrets1
    by (subst w1; simpl; by apply calm_answering).
  split.
  - intros Hobjects.
    by rewrite (Hrun _ (collect_users_calm sm w names Hobjects [] w1 Hw Hcalm1 Hsecrets1)).
  - intros Hbad.
    by rewrite (Hrun _ (collect_users_raises sm w names Hbad [] w1 Hw Hcalm1 Hsecrets1)).
Qed.

(** X11 at the store that holds the record of [u789], and at a store whose
    one secret holds the JSON list [[1]]. *)
Lemma admin_users_lists_witness :
  (admin_users (H := Plain.lib) Scenario.cfg Scenario.sm (Some "k3y") Scenario.onboarded).1
  = Ok (JSONResponse
          (JArr [JObj [("spotify_user_id", JStr "u789"); ("display_name", JStr "Jane")]]))
  /\ (admin_users (H := Scenario.reads_lists) Scenario.cfg Scenario.sm (Some "k3y")
        Scenario.listy).1
     = Raise AttributeError.
Proof.
  split.
  - destruct (admin_users_lists (H := Plain.lib) Scenario.cfg Scenario.sm (Some "k3y")
                Scenario.onboarded
                (list_spotify_secrets Scenario.sm "spotify1-refresh-" Scenario.onboarded).2
                ["spotify1-refresh-u789"]) as [Hlists _];
      [reflexivity | reflexivity | vm_compute; reflexivity |].
    rewrite Hlists; [vm_compute; reflexivity |].
    constructor; [| constructor].
    right. eexists. vm_compute. reflexivity.
  - destruct (admin_users_lists (H := Scenario.reads_lists) Scenario.cfg Scenario.sm
                (Some "k3y") Scenario.listy
                (list_spotify_secrets Scenario.sm "spotify1-refresh-" Scenario.listy).2
                ["spotify1-refresh-u1"]) as [_ Hraises];
      [reflexivity | reflexivity | vm_compute; reflexivity |].
    apply Hraises. constructor. split; [vm_compute; reflexivity |].
    intros items. vm_compute. discriminate.
Defined.

(** X12 at a header that guesses wrong and at no header, key configured. *)
Lemma admin_gate_closed_witness :
  (admin_users (H := Plain.lib) Scenario.cfg Scenario.sm (Some "guess") Scenario.onboarded).1
  = Raise (HTTPException 401 "Unauthorized")
  /\ get_token (H := Plain.lib) Scenario.cfg Scenario.sm "u789" None Scenario.onboarded
     = (Raise (HTTPException 401 "Unauthorized"), Scenario.onboarded).
Proof.
  split.
  - destruct (admin_gate_closed (H := Plain.lib) Scenario.cfg Scenario.sm "k3y" "u789"
                (Some "guess") Scenario.onboarded) as [Husers _];
      [reflexivity | discriminate |].
    by rewrite Husers.
  - destruct (admin_gate_closed (H := Plain.lib) Scenario.cfg Scenario.sm "k3y" "u789"
                None Scenario.onboarded) as [_ Htoken];
      [reflexivity | discriminate |].
    exact Htoken.
Defined.

(** X13. After a callback has ended on the success page, and before any
    other write, [get_token] called with the key and with the id shown on
    that page reads back what this onboarding stored: the JSON text of the
    record of that id and display name with a non-empty refresh token, as
    the codec decodes and parses it. *)
Theorem onboarded_user_is_served `{PyLib} (cfg : settings) (sm : SecretManagerClient)
    (net : internet) (code state x_api_key : option string) (w w' : world)
    (display_name spotify_user_id : json) :
  callback cfg sm net code state w
    = (Ok (TemplateResponse "success.html"
             [("display_name", display_name); ("spotify_user_id", spotify_user_id)]), w') ->
  x_api_key = ADMIN_API_KEY cfg ->
  reachable w' = true ->
  no_race w' = true ->
  exists refresh_token scope data,
    truthy refresh_token = true
    /\ encode_utf8
         (json_dumps (JObj [ ("spotify_user_id", spotify_user_id);
                             ("display_name", display_name);
                             ("refresh_token", refresh_token);
                             ("scope", scope);
                             ("created_at", JStr (utcnow net)) ])) = Some data
    /\ (get_token cfg sm (fmt_json spotify_user_id) x_api_key w').1
       = if truthy (parsed data) then Ok (JSONResponse (parsed data))
         else Raise (HTTPException 404 "User not found").
Proof.
  intros Hrun -> Hreach Hquiet.
  apply callback_run in Hrun
    as [(_ & _ & _ & [[_ [=]] | [_ [[=] | [[=] | (message & _ & [=])]]]])
       | (uid & dn & rt & sc & w1 & stored & _ & _ & _ & _ & Hrt & Hstore & Hr)].
  destruct stored as [[]|e]; [| discriminate Hr]. injection Hr as <- <-.
  apply create_or_update_secret_ok in Hstore
    as (data & versions & Hdata & Hname & Hstored & _).
  exists rt, sc, data. split; [done |]. split; [done |].
  unfold get_token. rewrite str_ne_same. unfold bind.
  rewrite get_secret_payload_reads. unfold get_latest.
  rewrite Hreach, Hname, answering_no_race, Hstored, last_snoc by done. simpl.
  by destruct (truthy (parsed data)).
Qed.

(** X13 at the end-to-end scenario. *)
Lemma onboarded_user_is_served_witness :
  (get_token (H := Plain.lib) Scenario.cfg Scenario.sm "u789" (Some "k3y")
     (callback (H := Plain.lib) Scenario.cfg Scenario.sm
        (Scenario.provider (Scenario.answer 200 Scenario.tokens)
                           (Scenario.answer 200 Scenario.profile))
        (Some "abc123") None Scenario.quiet).2).1
  = Ok (JSONResponse
          (JObj [ ("spotify_user_id", JStr "u789"); ("display_name", JStr "Jane");
                  ("refresh_token", JStr "RT1"); ("scope", JStr "user-read-email");
                  ("created_at", JStr "2024-05-01T12:00:00") ])).
Proof.
  destruct (onboarded_user_is_served (H := Plain.lib) Scenario.cfg Scenario.sm
              (Scenario.provider (Scenario.answer 200 Scenario.tokens)
                                 (Scenario.answer 200 Scenario.profile))
              (Some "abc123") None (Some "k3y") Scenario.quiet
              (callback (H := Plain.lib) Scenario.cfg Scenario.sm
                 (Scenario.provider (Scenario.answer 200 Scenario.tokens)
                                    (Scenario.answer 200 Scenario.profile))
                 (Some "abc123") None Scenario.quiet).2
              (JStr "Jane") (JStr "u789"))
    as (rt & sc & data & _ & _ & _);
    [vm_compute; reflexivity | reflexivity | reflexivity | reflexivity |].
  vm_compute. reflexivity.
Defined.

(** X14. Importing the module has three outcomes, decided in this order.
    If the client identifier, the client secret, the project or the redirect
    URI is unset or set to the empty string, it raises the "Missing required
    env variables." exception, whatever the Secret Manager client would have
    done. Otherwise, if making that client raises, that exception stops the
    import. Otherwise the process starts, with the settings read from the
    environment and the adapter bound to [GCP_PROJECT]. So the process starts
    exactly when the four variables are set to non-empty strings and the
    client can be made; no other variable is required. *)
Theorem startup_accepts (environ : gmap string string) (service_client : result unit) :
  let required := [ "SPOTIFY_CLIENT_ID"; "SPOTIFY_CLIENT_SECRET"; "GCP_PROJECT";
                    "SPOTIFY_REDIRECT_URI" ] in
  let present := fun k => exists v, environ !! k = Some v /\ v <> "" in
  (~ Forall present required ->
     startup environ service_client = Raise (PyException "Missing required env variables."))
  /\ (forall e, Forall present required -> service_client = Raise e ->
        startup environ service_client = Raise e)
  /\ (Forall present required -> service_client = Ok tt ->
        startup environ service_client
        = Ok (read_settings environ, {| project_id := environ !! "GCP_PROJECT" |}))
  /\ ((exists cfg sm, startup environ service_client = Ok (cfg, sm))
      <-> Forall present required /\ service_client = Ok tt).
Proof.
  cbv zeta.
  assert (forall o : option string,
            truthy_str o = true <-> exists v, o = Some v /\ v <> "") as Htruthy.
  { intros [v|]; simpl.
    - rewrite negb_true_iff, String.eqb_neq. split; [by exists v | by intros (? & [= <-] & ?)].
    - split; [done | by intros (? & [=] & _)]. }
  assert (Forall (fun k => exists v, environ !! k = Some v /\ v <> "")
            [ "SPOTIFY_CLIENT_ID"; "SPOTIFY_CLIENT_SECRET"; "GCP_PROJECT";
              "SPOTIFY_REDIRECT_URI" ]
          <-> truthy_str (environ !! "SPOTIFY_CLIENT_ID")
              && truthy_str (environ !! "SPOTIFY_CLIENT_SECRET")
              && truthy_str (environ !! "GCP_PROJECT")
              && truthy_str (environ !! "SPOTIFY_REDIRECT_URI") = true) as Hguard.
  { rewrite !Forall_cons, Forall_nil, <- !Htruthy, !andb_true_iff. tauto. }
  revert Hguard. generalize (Forall (fun k => exists v, environ !! k = Some v /\ v <> "")
            [ "SPOTIFY_CLIENT_ID"; "SPOTIFY_CLIENT_SECRET"; "GCP_PROJECT";
              "SPOTIFY_REDIRECT_URI" ]).
  intros all_present Hguard.
  unfold startup, check_settings, __init__. simpl.
  destruct (_ && _) eqn:Hall in Hguard |- *; simpl.
  - assert all_present as Hyes by by apply Hguard.
    split; [done |]. split; [by intros e _ -> |]. split; [by intros _ -> |].
    split.
    + destruct service_client as [[]|e]; [done | by intros (? & ? & [=])].
    + intros [_ ->]. eauto.
  - assert (~ all_present) as Hno by (rewrite Hguard; done).
    split; [done |]. split; [done |]. split; [done |].
    split; [by intros (? & ? & [=]) | by intros [? _]].
Qed.

(** X15. When the store answers and its secret ids hold no slash,
    [list_spotify_secrets] returns the ids of the project's secrets that
    start with the prefix, each of them once, and nothing else: no name of
    another project, no id that only holds the prefix further in. *)
Theorem list_spotify_secrets_exact (self : SecretManagerClient) (prefix : string)
    (w : world) :
  reachable w = true ->
  well_named (answering w) ->
  str_split slash (fmt (project_id self)) = [fmt (project_id self)] ->
  exists names,
    (list_spotify_secrets self prefix w).1 = Ok names
    /\ NoDup names
    /\ forall n, n ∈ names
                 <-> String.prefix prefix n = true
                     /\ is_Some (answering w !! (fmt (project_id self), n)).
Proof.
  intros Hr Hnamed Hproj.
  destruct (list_spotify_secrets_names (H := Plain.lib) self prefix w Hr Hnamed Hproj)
    as (names & Hlist & Hnodup & Hin).
  exists names. by rewrite Hlist.
Qed.

(** X15 at the store that holds the record of [u789]. *)
Lemma list_spotify_secrets_exact_witness :
  exists names,
    (list_spotify_secrets Scenario.sm "spotify1-refresh-" Scenario.onboarded).1 = Ok names
    /\ NoDup names
    /\ "spotify1-refresh-u789" ∈ names.
Proof.
  destruct (list_spotify_secrets_exact Scenario.sm "spotify1-refresh-" Scenario.onboarded)
    as (names & Hlist & Hnodup & Hin).
  - reflexivity.
  - apply map_Forall_to_list. vm_compute. repeat constructor.
  - vm_compute. reflexivity.
  - exists names. split; [exact Hlist |]. split; [exact Hnodup |].
    apply Hin. split; [reflexivity |]. vm_compute. eauto.
Defined.

Lemma grown_refl (σ : gmap (string * string) (list bytes)) : grown σ σ.
Proof. intros k versions Hk. exists []. by rewrite app_nil_r. Qed.

Lemma grown_trans (σ1 σ2 σ3 : gmap (string * string) (list bytes)) :
  grown σ1 σ2 -> grown σ2 σ3 -> grown σ1 σ3.
Proof.
  intros H12 H23 k versions Hk.
  destruct (H12 k versions Hk) as [a Ha]. destruct (H23 k _ Ha) as [b Hb].
  exists (a ++ b). by rewrite app_assoc.
Qed.

Lemma grown_insert_new (σ : gmap (string * string) (list bytes)) (k : string * string)
    (versions : list bytes) :
  σ !! k = None -> grown σ (<[k := versions]> σ).
Proof.
  intros Hk k' versions' Hk'. exists [].
  rewrite lookup_insert_ne by congruence. by rewrite app_nil_r.
Qed.

Lemma grown_insert_app (σ : gmap (string * string) (list bytes)) (k : string * string)
    (versions added : list bytes) :
  σ !! k = Some versions -> grown σ (<[k := versions ++ added]> σ).
Proof.
  intros Hk k' versions' Hk'. destruct (decide (k = k')) as [<-|Hne].
  - exists added. rewrite lookup_insert_eq. congruence.
  - exists []. rewrite lookup_insert_ne by done. by rewrite app_nil_r.
Qed.

Lemma grown_other_onboarding (p s : string) (data : bytes)
    (σ : gmap (string * string) (list bytes)) :
  grown σ (other_onboarding p s data σ).
Proof.
  unfold other_onboarding. destruct (valid_secret_id s); [| apply grown_refl].
  destruct (σ !! (p, s)) as [versions|] eqn:Hk; simpl.
  - by apply grown_insert_app.
  - by apply grown_insert_new.
Qed.

Lemma grown_answering (w : world) : grown (secrets w) (answering w).
Proof.
  unfold answering. destruct (fates w) as [|[| |] ?];
    try apply grown_refl. apply grown_other_onboarding.
Qed.

Lemma rpc_grown {A : Type} (c : call)
    (serve : gmap (string * string) (list bytes) -> result A * gmap (string * string) (list bytes))
    (w : world) :
  (forall σ, grown σ (serve σ).2) -> grown (secrets w) (secrets (rpc c serve w).2).
Proof.
  intros Hserve. destruct (reachable w) eqn:Hr.
  - rewrite rpc_reachable by done. simpl.
    eapply grown_trans; [apply grown_answering | apply Hserve].
  - destruct (rpc_unreachable c serve w Hr) as (e & _ & ->). apply grown_refl.
Qed.

Lemma serve_get_secret_grown (name : string) (σ : gmap (string * string) (list bytes)) :
  grown σ (serve_get_secret name σ).2.
Proof. unfold serve_get_secret. repeat case_match; apply grown_refl. Qed.

Lemma serve_create_secret_grown (parent secret_id : string)
    (σ : gmap (string * string) (list bytes)) :
  grown σ (serve_create_secret parent secret_id σ).2.
Proof.
  unfold serve_create_secret. repeat case_match; simpl; try apply grown_refl.
  by apply grown_insert_new.
Qed.

Lemma serve_add_secret_version_grown (parent : string) (data : bytes)
    (σ : gmap (string * string) (list bytes)) :
  grown σ (serve_add_secret_version parent data σ).2.
Proof.
  unfold serve_add_secret_version. repeat case_match; simpl; try apply grown_refl.
  by apply grown_insert_app.
Qed.

Lemma create_or_update_secret_grown `{PyLib} (self : SecretManagerClient)
    (secret_id payload : string) (w : world) :
  grown (secrets w) (secrets (create_or_update_secret self secret_id payload w).2).
Proof.
  rewrite create_or_update_secret_eq. unfold bind at 1, attempt.
  pose proof (rpc_grown (GetSecret ("projects/" +:+ fmt (project_id self) +:+ "/secrets/"
                                    +:+ secret_id))
                (serve_get_secret ("projects/" +:+ fmt (project_id self) +:+ "/secrets/"
                                   +:+ secret_id)) w
                (serve_get_secret_grown _)) as Hget.
  fold (get_secret ("projects/" +:+ fmt (project_id self) +:+ "/secrets/" +:+ secret_id))
    in Hget.
  destruct (get_secret _ w) as [found w1]. simpl in Hget.
  eapply grown_trans; [exact Hget |]. clear Hget.
  assert (forall w2,
            grown (secrets w2)
              (secrets ((let* data := or_raise UnicodeEncodeError (encode_utf8 payload) in
                         add_secret_version
                           ("projects/" +:+ fmt (project_id self) +:+ "/secrets/"
                            +:+ secret_id) data) w2).2)) as Happend.
  { intros w2. unfold bind, or_raise.
    destruct (encode_utf8 payload) as [data|]; simpl; [| apply grown_refl].
    pose proof (rpc_grown (AddSecretVersion
                             ("projects/" +:+ fmt (project_id self) +:+ "/secrets/"
                              +:+ secret_id) data)
                  (serve_add_secret_version
                     ("projects/" +:+ fmt (project_id self) +:+ "/secrets/" +:+ secret_id)
                     data) w2 (serve_add_secret_version_grown _ _)) as Hadd.
    unfold add_secret_version. by destruct (rpc _ _ w2) as [[[]|e] w3]. }
  unfold bind at 1. destruct found as [[]|e]; simpl.
  - apply Happend.
  - pose proof (rpc_grown (CreateSecret ("projects/" +:+ fmt (project_id self)) secret_id)
                  (serve_create_secret ("projects/" +:+ fmt (project_id self)) secret_id) w1
                  (serve_create_secret_grown _ _)) as Hcreate.
    fold (create_secret ("projects/" +:+ fmt (project_id self)) secret_id) in Hcreate.
    destruct (create_secret _ secret_id w1) as [[[]|e'] w2]; simpl in *; [| done].
    eapply grown_trans; [exact Hcreate | apply Happend].
Qed.

Lemma collect_users_grown `{PyLib} (sm : SecretManagerClient) (names : list string) :
  forall (users : list json) (w : world),
    grown (secrets w) (secrets (collect_users sm names users w).2).
Proof.
  induction names as [|n names IH]; intros users w; [apply grown_refl |].
  cbn [collect_users]. unfold bind at 1. rewrite get_secret_payload_reads.
  eapply grown_trans; [apply grown_answering |].
  change (answering w)
    with (secrets (after (AccessSecretVersion
                            ("projects/" +:+ fmt (project_id sm) +:+ "/secrets/" +:+ n
                             +:+ "/versions/latest")) (answering w) w)) at 1.
  destruct (truthy (get_latest sm n w)); [| apply IH].
  unfold bind at 1, lift at 1.
  destruct (get _ "spotify_user_id"); [| apply grown_refl].
  unfold bind at 1, lift at 1.
  destruct (get _ "display_name"); [apply IH | apply grown_refl].
Qed.

(** X16. The store is append-only under the handlers. Whatever the provider
    and the store do, and whatever other requests write meanwhile, every
    secret that was there before [callback], [create_or_update_secret],
    [admin_users] or [get_token] is there after, with the versions it had,
    in order, followed by those added since: nothing is deleted and no
    version is replaced. *)
Theorem handlers_keep_versions `{PyLib} (cfg : settings) (sm : SecretManagerClient)
    (net : internet) (code state x_api_key : option string)
    (secret_id payload spotify_user_id : string) (w : world) :
  grown (secrets w) (secrets (callback cfg sm net code state w).2)
  /\ grown (secrets w) (secrets (create_or_update_secret sm secret_id payload w).2)
  /\ grown (secrets w) (secrets (admin_users cfg sm x_api_key w).2)
  /\ grown (secrets w) (secrets (get_token cfg sm spotify_user_id x_api_key w).2).
Proof.
  split; [| split; [apply create_or_update_secret_grown | split]].
  - destruct (callback cfg sm net code state w) as [r w'] eqn:Hrun. simpl.
    apply callback_run in Hrun
      as [(-> & _) | (uid & dn & rt & sc & w1 & stored & _ & <- & _ & _ & _ & Hstore & _)];
      [apply grown_refl |].
    pose proof (create_or_update_secret_grown sm
                  (SPOTIFY_SECRET_PREFIX cfg +:+ fmt_json uid)
                  (json_dumps (JObj [ ("spotify_user_id", uid); ("display_name", dn);
                                      ("refresh_token", rt); ("scope", sc);
                                      ("created_at", JStr (utcnow net)) ])) w1) as Hgrown.
    by rewrite Hstore in Hgrown.
  - unfold admin_users. destruct (str_ne _ _); [apply grown_refl |].
    unfold bind at 1.
    pose proof (list_spotify_secrets_world sm (SPOTIFY_SECRET_PREFIX cfg) w) as Hw1.
    destruct (list_spotify_secrets sm _ w) as [[names|e] w1]; simpl in Hw1; subst w1;
      simpl; [| apply grown_answering].
    eapply grown_trans; [apply grown_answering |].
    unfold bind.
    pose proof (collect_users_grown sm names []
                  (after (ListSecrets ("projects/" +:+ fmt (project_id sm)))
                     (answering w) w)) as Hloop.
    by destruct (collect_users sm names [] _) as [[users|e] w2].
  - unfold get_token. destruct (str_ne _ _); [apply grown_refl |].
    unfold bind. rewrite get_secret_payload_reads.
    destruct (negb _); apply grown_answering.
Qed.

(* ===================================================================== *)
(** ** The pages that start the flow                                      *)
(* ===================================================================== *)

Lemma append_nil_r (s : string) : s +:+ "" = s.
Proof. induction s as [|c s IH]; [done |]. by rewrite append_cons, IH. Qed.

Lemma list_ascii_inj (a b : string) :
  list_ascii_of_string a = list_ascii_of_string b -> a = b.
Proof.
  intros Hab. rewrite <- (string_of_list_ascii_of_string a),
    <- (string_of_list_ascii_of_string b). by rewrite Hab.
Qed.

Lemma substring_prefix (x y : string) : substring 0 (String.length x) (x +:+ y) = x.
Proof.
  induction x as [|c x IH].
  - rewrite append_nil. by destruct y.
  - rewrite append_cons. simpl. by rewrite IH.
Qed.

(** The digits of a number split into the high ones and the low ones. *)
Lemma hex_split (a b : nat) (n : Z) :
  hex (a + b) n = hex a (n / 16 ^ Z.of_nat b) +:+ hex b n.
Proof.
  revert n. induction b as [|b IH]; intros n.
  - rewrite Nat.add_0_r. simpl. by rewrite Z.div_1_r, append_nil_r.
  - rewrite Nat.add_succ_r. cbn [hex]. rewrite IH, append_assoc.
    rewrite Z.div_div by lia. rewrite Nat2Z.inj_succ, Z.pow_succ_r by lia. done.
Qed.

Lemma hex_digit_inj (x y : Z) :
  0 <= x < 16 -> 0 <= y < 16 -> hex_digit x = hex_digit y -> x = y.
Proof.
  intros Hx Hy. unfold hex_digit. rewrite !nth_lookup.
  assert (forall i, (i < 16)%nat ->
            exists c, list_ascii_of_string "0123456789abcdef" !! i = Some c) as Hsome.
  { intros i Hi. apply lookup_lt_is_Some. simpl. lia. }
  destruct (Hsome (Z.to_nat x)) as [c Hc]; [lia |].
  destruct (Hsome (Z.to_nat y)) as [d Hd]; [lia |].
  rewrite Hc, Hd. simpl. intros ->.
  assert (NoDup (list_ascii_of_string "0123456789abcdef")) as Hnodup.
  { apply (bool_decide_unpack _). vm_compute. exact I. }
  pose proof (NoDup_lookup _ _ _ _ Hnodup Hc Hd). lia.
Qed.

Lemma hex_length (digits : nat) (n : Z) : String.length (hex digits n) = digits.
Proof. rewrite <- length_list_ascii. apply hex_chars. Qed.

(** Two numbers have the same [digits] digits when they agree modulo
    [16 ^ digits]. *)
Lemma hex_same (digits : nat) (a b : Z) :
  hex digits a = hex digits b <-> a mod 16 ^ Z.of_nat digits = b mod 16 ^ Z.of_nat digits.
Proof.
  revert a b. induction digits as [|d IH]; intros a b.
  - simpl. rewrite !Z.mod_1_r. tauto.
  - rewrite Nat2Z.inj_succ, Z.pow_succ_r by lia.
    rewrite !(Z.rem_mul_r _ 16) by lia.
    pose proof (Z.mod_pos_bound a 16 ltac:(lia)) as Ha.
    pose proof (Z.mod_pos_bound b 16 ltac:(lia)) as Hb.
    cbn [hex]. split.
    + intros Heq. apply (f_equal list_ascii_of_string) in Heq.
      rewrite !list_ascii_append in Heq.
      apply app_inj_2 in Heq as [Hhigh Hlow]; [| done].
      apply list_ascii_inj, IH in Hhigh.
      simpl in Hlow. injection Hlow as Hlow. apply hex_digit_inj in Hlow; [| done ..].
      by rewrite Hhigh, Hlow.
    + intros Heq.
      assert (a mod 16 = b mod 16
              /\ (a / 16) mod 16 ^ Z.of_nat d = (b / 16) mod 16 ^ Z.of_nat d) as [Hlow Hhigh]
        by lia.
      apply IH in Hhigh. by rewrite Hhigh, Hlow.
Qed.

(** The first eight hexadecimal digits of a UUID are those of its 32 highest
    bits. *)
Lemma uuid_hex_top (n : Z) : substring 0 8 (uuid_hex n) = hex 8 (n / 16 ^ 24).
Proof.
  unfold uuid_hex. change 32%nat with (8 + 24)%nat.
  rewrite hex_split.
  rewrite <- (hex_length 8 (n / 16 ^ Z.of_nat 24)) at 1.
  apply substring_prefix.
Qed.

(** X17. [login] and [index] never pass a state to [build_auth_url]: the
    URL that [login] redirects to, and the one that [index] hands to its
    template, carries one [state] parameter, ["st-"] followed by the eight
    hexadecimal digits of the 32 highest bits of the 128-bit UUID drawn for
    the page. Two page loads therefore send the same state exactly when their
    UUIDs agree on those 32 bits; the other 96 bits play no part. The URL is
    read as [parse_qsl] reads it, for a library whose [urlencode] it reads
    back. *)
Theorem entry_pages_state `{PyLib} (cfg : settings) (u v : Z) :
  (forall query, parse_qsl (urlencode query) = query) ->
  (exists url, login cfg u = RedirectResponse url
               /\ url_params "state" url = [ "st-" +:+ hex 8 (u / 16 ^ 24) ])
  /\ (exists url, index cfg u = TemplateResponse "index.html" [("login_url", JStr url)]
                  /\ url_params "state" url = [ "st-" +:+ hex 8 (u / 16 ^ 24) ])
  /\ (url_params "state" (build_auth_url cfg None u)
        = url_params "state" (build_auth_url cfg None v)
      <-> (u / 16 ^ 24) mod 16 ^ 8 = (v / 16 ^ 24) mod 16 ^ 8).
Proof.
  intros Hreads.
  assert (forall n, url_params "state" (build_auth_url cfg None n)
                    = [ "st-" +:+ hex 8 (n / 16 ^ 24) ]) as Hstate.
  { intros n. rewrite build_auth_url_reads by done. cbn [truthy_str]. by rewrite uuid_hex_top. }
  split; [exists (build_auth_url cfg None u); by split |].
  split; [exists (build_auth_url cfg None u); by split |].
  rewrite !Hstate. rewrite <- (hex_same 8).
  generalize (hex 8 (u / 16 ^ 24)), (hex 8 (v / 16 ^ 24)). intros x y. split.
  - intros [= Heq]. exact Heq.
  - by intros ->.
Qed.

(** X17 at two UUIDs that differ in their low bits only: both pages send
    [st-deadbeef]. *)
Lemma entry_pages_state_witness :
  (exists url, login (H := Plain.lib) Scenario.cfg (3735928559 * 16 ^ 24 + 11)
               = RedirectResponse url
               /\ url_params "state" url = [ "st-deadbeef" ])
  /\ url_params "state"
       (build_auth_url (H := Plain.lib) Scenario.cfg None (3735928559 * 16 ^ 24 + 11))
     = url_params "state"
         (build_auth_url (H := Plain.lib) Scenario.cfg None (3735928559 * 16 ^ 24 + 12)).
Proof.
  destruct (entry_pages_state (H := Plain.lib) Scenario.cfg (3735928559 * 16 ^ 24 + 11)
              (3735928559 * 16 ^ 24 + 12) parse_qsl_encode_query)
    as ((url & Hlogin & Hstate) & _ & Hsame).
  split.
  - exists url. split; [exact Hlogin |]. rewrite Hstate. vm_compute. reflexivity.
  - apply Hsame. vm_compute. reflexivity.
Defined.
